(** * MQTT hashtag publisher / subscriber: a shallow embedding

    The two programs [publisher.py] and [subscriber.py] are thin Tk forms
    bound to a paho-mqtt client.  This development embeds their handlers
    as functions over an explicit application state and proves the
    properties of the topic normalisation, of the subscribed set, of the
    message queue and of the calls made into the MQTT client.

    Conventions.
    - A Python [str] is a list of Unicode code points ([list N]).
    - A handler is a computation in a state-and-exception monad over the
      application object; every call into the MQTT client, every message
      box and every status update is appended to a log kept in the state.
    - The MQTT client is an external collaborator: whether one of its
      calls raises is decided by an oracle that sees the log so far and
      the call being made.  Tk widget calls and message boxes are taken to
      return normally. *)

From Stdlib Require Import String Ascii ZArith DecimalString.
From stdpp Require Import gmap list.

Local Open Scope N_scope.
Local Open Scope list_scope.

(** ** Python strings *)

Module Py.

Abbreviation str := (list N).

(** A literal: the code points of an ASCII string constant. *)
Definition py (s : string) : str :=
  List.map N_of_ascii (list_ascii_of_string s).

(** [str.isspace] on one code point, as CPython's [Py_UNICODE_ISSPACE]. *)
Definition isspace (c : N) : bool :=
  ((9 <=? c) && (c <=? 13)) || ((28 <=? c) && (c <=? 32))
  || (c =? 133) || (c =? 160) || (c =? 5760)
  || ((8192 <=? c) && (c <=? 8202))
  || (c =? 8232) || (c =? 8233) || (c =? 8239) || (c =? 8287)
  || (c =? 12288).

Fixpoint lstrip (s : str) : str :=
  match s with
  | [] => []
  | c :: s' => if isspace c then lstrip s' else s
  end.

Definition rstrip (s : str) : str := rev (lstrip (rev s)).

(** [s.strip()] *)
Definition strip (s : str) : str := rstrip (lstrip s).

(** [s.startswith(p)] *)
Fixpoint startswith (s p : str) {struct p} : bool :=
  match p, s with
  | [], _ => true
  | _ :: _, [] => false
  | a :: p', b :: s' => (a =? b) && startswith s' p'
  end.

(** [not s] for a string: true on the empty string only. *)
Definition is_empty (s : str) : bool :=
  match s with [] => true | _ :: _ => false end.

(** [str(n)] for an integer. *)
Definition str_of_int (n : Z) : str :=
  py (NilZero.string_of_int (Z.to_int n)).

(** Every character of [s] is whitespace. *)
Definition all_space (s : str) : bool := forallb isspace s.

(** [s] neither starts nor ends with whitespace. *)
Definition trimmed (s : str) : bool :=
  match s with
  | [] => true
  | c :: _ => negb (isspace c) && negb (isspace (List.last s c))
  end.

End Py.
Import Py.

(** ** Exceptions and the handler monad *)

(** A raised [Exception], with its message ([str(e)]). *)
Inductive exn := Exception (msg : str).

Definition exn_str (e : exn) : str := match e with Exception m => m end.

Inductive outcome (A : Type) :=
| Return (a : A)
| Raise (e : exn).
Arguments Return {A} a.
Arguments Raise {A} e.

Definition M (S A : Type) : Type := S -> outcome A * S.

Definition ret {S A} (a : A) : M S A := fun s => (Return a, s).

Definition bind {S A B} (m : M S A) (k : A -> M S B) : M S B :=
  fun s =>
    match m s with
    | (Return a, s') => k a s'
    | (Raise e, s') => (Raise e, s')
    end.

Definition raise {S A} (e : exn) : M S A := fun s => (Raise e, s).

(** [try: body  except Exception as e: handler e] *)
Definition try_except {S A} (body : M S A) (handler : exn -> M S A) : M S A :=
  fun s =>
    match body s with
    | (Return a, s') => (Return a, s')
    | (Raise e, s') => handler e s'
    end.

(** [for x in l: body x] *)
Fixpoint for_each {S A} (l : list A) (body : A -> M S unit) : M S unit :=
  match l with
  | [] => ret tt
  | x :: l' => bind (body x) (fun _ => for_each l' body)
  end.

Definition gets {S A} (f : S -> A) : M S A := fun s => (Return (f s), s).
Definition modify {S} (f : S -> S) : M S unit := fun s => (Return tt, f s).

Declare Scope py_scope.
Delimit Scope py_scope with py.
Notation "x <- m ;; k" := (bind m (fun x => k))
  (at level 100, m at next level, right associativity) : py_scope.
Notation "m ;; k" := (bind m (fun _ => k))
  (at level 100, right associativity) : py_scope.

(** Whether a call into a library returned. *)
Definition returns_normally (o : option exn) : bool :=
  match o with None => true | Some _ => false end.

(** The final state and the result of running a handler. *)
Definition exec {S A} (m : M S A) (s : S) : S := snd (m s).
Definition result {S A} (m : M S A) (s : S) : outcome A := fst (m s).

(** ** What the outside world sees *)

Inductive event :=
| ClientSubscribe (topic : str)
| ClientUnsubscribe (topic : str)
| ClientPublish (topic payload : str)
| ShowWarning (title message : str)
| ShowInfo (title message : str)
| ShowError (title message : str)
| UpdateStatus (text : str) (error : bool)
| BoxInsert (display : str)
| After (ms : Z).

(** The calls that reach the MQTT client (the transport primitives). *)
Definition is_client_call (ev : event) : bool :=
  match ev with
  | ClientSubscribe _ | ClientUnsubscribe _ | ClientPublish _ _ => true
  | _ => false
  end.

Definition client_calls (log : list event) : list event :=
  List.filter is_client_call log.

(** The topics of the raw subscribe calls in a piece of log, in order. *)
Definition subscribe_topics (l : list event) : list str :=
  omap (fun ev => match ev with ClientSubscribe t => Some t | _ => None end) l.

(** The lines put in the messages box in a piece of log, in order. *)
Definition box_lines (l : list event) : list str :=
  omap (fun ev => match ev with BoxInsert d => Some d | _ => None end) l.

Definition BROKER : str := py "test.mosquitto.org".
Definition PORT : Z := 1883.

(** ** subscriber.py *)

Module Subscriber.

Definition normalize_topic (raw_hashtag : str) : str :=
  let tag := strip raw_hashtag in
  let tag := if startswith tag (py "#") then strip (drop 1 tag) else tag in
  if is_empty tag then [] else py "twitter/" ++ tag.

(** The fields of a [SubscriberApp] object that the handlers read or
    write, and the log of what it did to the outside world. *)
Record SubscriberApp := mkApp {
  hashtag_entry : str;             (* text typed in the Entry widget *)
  subscribed : gset str;           (* set of subscribed topics *)
  msg_queue : list (str * str);    (* queue.Queue(): head is the oldest *)
  log : list event
}.

(** The topic a click on Subscribe or Unsubscribe is about: both handlers
    start with [normalize_topic(self.hashtag_entry.get().strip())]. *)
Definition requested (s : SubscriberApp) : str :=
  normalize_topic (strip (hashtag_entry s)).

Definition emit (ev : event) : M SubscriberApp unit :=
  modify (fun s => mkApp (hashtag_entry s) (subscribed s) (msg_queue s)
                         (log s ++ [ev])).

Definition set_subscribed (X : gset str) : M SubscriberApp unit :=
  modify (fun s => mkApp (hashtag_entry s) X (msg_queue s) (log s)).

Definition set_msg_queue (q : list (str * str)) : M SubscriberApp unit :=
  modify (fun s => mkApp (hashtag_entry s) (subscribed s) q (log s)).

Section Handlers.

(** The MQTT client: [client log call] is [Some e] when [call], made after
    [log], raises [e]. *)
Variable client : list event -> event -> option exn.

(** An inbound [MQTTMessage]: [msg.payload.decode("utf-8", errors="ignore")]
    and [msg.topic] belong to the library and may raise. *)
Variable MQTTMessage : Type.
Variable payload_decode : MQTTMessage -> outcome str.
Variable msg_topic : MQTTMessage -> outcome str.

(** [time.strftime("%Y-%m-%d %H:%M:%S")], read after the given log. *)
Variable strftime : list event -> str.

Local Open Scope py_scope.

Definition call_client (ev : event) : M SubscriberApp unit :=
  past <- gets log ;;
  emit ev ;;
  match client past ev with
  | None => ret tt
  | Some e => raise e
  end.

Definition lift {A} (o : outcome A) : M SubscriberApp A := fun s => (o, s).

Definition update_status (text : str) (error : bool) : M SubscriberApp unit :=
  emit (UpdateStatus text error).

(** [self.msg_queue.put(item)] on an unbounded queue. *)
Definition queue_put (item : str * str) : M SubscriberApp unit :=
  q <- gets msg_queue ;; set_msg_queue (q ++ [item]).

(** [self.subscribed.add(t)] *)
Definition set_add (t : str) : M SubscriberApp unit :=
  X <- gets subscribed ;; set_subscribed (X ∪ {[t]}).

(** [self.subscribed.remove(t)]: [KeyError] when [t] is absent.  The
    exception carries the key; Python's [str] of it adds quotes, which are
    left out here: [unsubscribe] checks membership first, so the text is
    never shown. *)
Definition set_remove (t : str) : M SubscriberApp unit :=
  X <- gets subscribed ;;
  if bool_decide (t ∈ X) then set_subscribed (X ∖ {[t]})
  else raise (Exception t).

(** The body of the loop of [on_connect]. *)
Definition replay_one (t : str) : M SubscriberApp unit :=
  try_except
    (call_client (ClientSubscribe t) ;;
     update_status (py "Subscribed to " ++ t) false)
    (fun _ => ret tt).

Definition on_connect (rc : Z) : M SubscriberApp unit :=
  if (rc =? 0)%Z then
    update_status (py "Connected to " ++ BROKER ++ py ":" ++ str_of_int PORT)
                  false ;;
    topics <- gets (fun s => elements (subscribed s)) ;;
    for_each topics replay_one
  else
    update_status (py "Connect failed (rc=" ++ str_of_int rc ++ py ")") true.

Definition on_disconnect (rc : Z) : M SubscriberApp unit :=
  update_status (py "Disconnected") true.

Definition on_message (msg : MQTTMessage) : M SubscriberApp unit :=
  try_except
    (payload <- lift (payload_decode msg) ;;
     topic <- lift (msg_topic msg) ;;
     queue_put (topic, payload))
    (fun _ => ret tt).

(** What [on_message] puts in the queue for [msg], if anything. *)
Definition decoded (msg : MQTTMessage) : option (str * str) :=
  match payload_decode msg, msg_topic msg with
  | Return payload, Return topic => Some (topic, payload)
  | _, _ => None
  end.

Definition subscribe : M SubscriberApp unit :=
  raw <- gets (fun s => strip (hashtag_entry s)) ;;
  let topic := normalize_topic raw in
  if is_empty topic then
    emit (ShowWarning (py "Empty hashtag")
      (py "Please enter a hashtag/topic to subscribe to (e.g. #python)."))
  else
    X <- gets subscribed ;;
    if bool_decide (topic ∈ X) then
      emit (ShowInfo (py "Already subscribed")
                     (py "Already subscribed to " ++ topic ++ py "."))
    else
      try_except
        (call_client (ClientSubscribe topic) ;;
         set_add topic ;;
         update_status (py "Subscribed to " ++ topic) false ;;
         queue_put (topic, py "[System] Subscribed"))
        (fun e =>
           emit (ShowError (py "Subscribe error")
                           (py "Failed to subscribe: " ++ exn_str e)) ;;
           update_status (py "Subscribe error: " ++ exn_str e) true).

Definition unsubscribe : M SubscriberApp unit :=
  raw <- gets (fun s => strip (hashtag_entry s)) ;;
  let topic := normalize_topic raw in
  if is_empty topic then
    emit (ShowWarning (py "Empty hashtag")
      (py "Please enter a hashtag/topic to unsubscribe from (e.g. #python)."))
  else
    X <- gets subscribed ;;
    if negb (bool_decide (topic ∈ X)) then
      emit (ShowInfo (py "Not subscribed")
                     (py "You're not subscribed to " ++ topic ++ py "."))
    else
      try_except
        (call_client (ClientUnsubscribe topic) ;;
         set_remove topic ;;
         update_status (py "Unsubscribed from " ++ topic) false ;;
         queue_put (topic, py "[System] Unsubscribed"))
        (fun e =>
           emit (ShowError (py "Unsubscribe error")
                           (py "Failed to unsubscribe: " ++ exn_str e)) ;;
           update_status (py "Unsubscribe error: " ++ exn_str e) true).

(** One line of the messages box: [f"[{ts}] {topic} — {payload}\n"]. *)
Definition display_line (ts topic payload : str) : str :=
  py "[" ++ ts ++ py "] " ++ topic ++ [32; 8212; 32] ++ payload ++ [10].

(** [while not self.msg_queue.empty(): ...], at most [fuel] rounds. *)
Fixpoint process_queue_loop (fuel : nat) : M SubscriberApp unit :=
  match fuel with
  | O => ret tt
  | S fuel' =>
      q <- gets msg_queue ;;
      match q with
      | [] => ret tt
      | (topic, payload) :: q' =>
          set_msg_queue q' ;;
          ts <- gets (fun s => strftime (log s)) ;;
          emit (BoxInsert (display_line ts topic payload)) ;;
          process_queue_loop fuel'
      end
  end.

(** The loop pops one item per round, so the length of the queue is
    enough fuel (see [process_queue_drains]). *)
Definition process_queue : M SubscriberApp unit :=
  n <- gets (fun s => length (msg_queue s)) ;;
  process_queue_loop n ;;
  emit (After 200).

End Handlers.

Arguments on_message {MQTTMessage}.
Arguments decoded {MQTTMessage}.

(** The box lines for a queue content [q], given one timestamp each. *)
Definition lines_of (tss : list str) (q : list (str * str)) : list event :=
  zip_with (fun ts item => BoxInsert (display_line ts (fst item) (snd item)))
           tss q.

End Subscriber.

(** ** publisher.py *)

Module Publisher.

Definition normalize_topic (raw_hashtag : str) : str :=
  let tag := strip raw_hashtag in
  let tag := if startswith tag (py "#") then strip (drop 1 tag) else tag in
  if is_empty tag then [] else py "twitter/" ++ tag.

(** The fields of a [PublisherApp] object.  [connected] is the state of
    the connection held by [self.client]; the library changes it, the
    application has no field of its own for it. *)
Record PublisherApp := mkApp {
  username_entry : str;
  hashtag_entry : str;
  tweet_text : str;                (* content of the text widget *)
  connected : bool;
  log : list event
}.

(** The local variables [username], [message], [topic] and [payload] of
    [publish_tweet], as functions of the widgets' content. *)
Definition username (s : PublisherApp) : str := strip (username_entry s).
Definition message (s : PublisherApp) : str := strip (tweet_text s ++ [10]).
Definition requested (s : PublisherApp) : str :=
  normalize_topic (strip (hashtag_entry s)).
Definition payload (s : PublisherApp) : str :=
  username s ++ py ": " ++ message s.

Definition emit (ev : event) : M PublisherApp unit :=
  modify (fun s => mkApp (username_entry s) (hashtag_entry s) (tweet_text s)
                         (connected s) (log s ++ [ev])).

Definition set_tweet_text (t : str) : M PublisherApp unit :=
  modify (fun s => mkApp (username_entry s) (hashtag_entry s) t
                         (connected s) (log s)).

Section Handlers.

(** The MQTT client: [client up log call] is [Some e] when [call], made
    after [log] on a connection that is up or not, raises [e]. *)
Variable client : bool -> list event -> event -> option exn.

Local Open Scope py_scope.

Definition call_client (ev : event) : M PublisherApp unit :=
  up <- gets connected ;;
  past <- gets log ;;
  emit ev ;;
  match client up past ev with
  | None => ret tt
  | Some e => raise e
  end.

Definition update_status (text : str) (error : bool) : M PublisherApp unit :=
  emit (UpdateStatus text error).

Definition on_connect (rc : Z) : M PublisherApp unit :=
  if (rc =? 0)%Z then
    update_status (py "Connected to " ++ BROKER ++ py ":" ++ str_of_int PORT)
                  false
  else
    update_status (py "Connect failed (rc=" ++ str_of_int rc ++ py ")") true.

Definition on_disconnect (rc : Z) : M PublisherApp unit :=
  update_status (py "Disconnected") true.

Definition publish_tweet : M PublisherApp unit :=
  username <- gets (fun s => strip (username_entry s)) ;;
  message <- gets (fun s => strip (tweet_text s ++ [10])) ;;
  raw_hashtag <- gets (fun s => strip (hashtag_entry s)) ;;
  let topic := normalize_topic raw_hashtag in
  if is_empty username then
    emit (ShowWarning (py "Missing username") (py "Please enter a username."))
  else if is_empty message then
    emit (ShowWarning (py "Empty tweet") (py "Please write a tweet message."))
  else if is_empty topic then
    emit (ShowWarning (py "Empty hashtag")
                      (py "Please enter a hashtag/topic (e.g. #python)."))
  else
    let payload := username ++ py ": " ++ message in
    try_except
      (call_client (ClientPublish topic payload) ;;
       update_status (py "Published to " ++ topic) false ;;
       set_tweet_text [])
      (fun e =>
         emit (ShowError (py "Publish error")
                         (py "Failed to publish: " ++ exn_str e)) ;;
         update_status (py "Publish error: " ++ exn_str e) true).

End Handlers.

End Publisher.

(** ** Concrete collaborators, for examples *)

Module Demo.

(** A client whose calls all return normally. *)
Definition quiet : list event -> event -> option exn := fun _ _ => None.

(** A client whose calls all raise. *)
Definition down : list event -> event -> option exn :=
  fun _ _ => Some (Exception (py "not connected")).

(** A client that refuses one topic and accepts the others. *)
Definition refuses (bad : str) : list event -> event -> option exn :=
  fun _ ev =>
    match ev with
    | ClientSubscribe t =>
        if bool_decide (t = bad) then Some (Exception (py "refused")) else None
    | _ => None
    end.

(** paho's [publish] returns a result object whether the connection is
    up or not (for a topic without the wildcards ['#'] and ['+'], which it
    refuses with a [ValueError]; the examples use none). *)
Definition paho : bool -> list event -> event -> option exn :=
  fun _ _ _ => None.

(** Messages given as their topic and their decoded payload. *)
Definition plain_payload (m : str * str) : outcome str := Return (snd m).
Definition plain_topic (m : str * str) : outcome str := Return (fst m).

(** A message whose payload cannot be decoded. *)
Definition broken_payload (m : str * str) : outcome str :=
  Raise (Exception (py "bad payload")).

Definition noon : list event -> str := fun _ => py "2024-01-01 12:00:00".

(** A subscriber right after [__init__], with [entry] typed in. *)
Definition fresh (entry : str) : Subscriber.SubscriberApp :=
  Subscriber.mkApp entry ∅ [] [].

(** A subscriber already following [twitter/a], with ["#a"] typed in. *)
Definition following : Subscriber.SubscriberApp :=
  Subscriber.mkApp (py "#a") {[py "twitter/a"]} [] [].

(** A publisher whose connection is not up. *)
Definition offline (user tag text : str) : Publisher.PublisherApp :=
  Publisher.mkApp user tag text false [].

End Demo.

(** ** Start-up and shutdown, the same in both programs *)

Module Lifecycle.

(** What [connect_in_thread] and [on_close] do to the client and to the
    window. *)
Inductive call :=
| Connect (host : str) (port keepalive : Z)
| LoopStart
| LoopStop
| Disconnect
| Status (text : str) (error : bool)
| Destroy.

Definition KEEPALIVE : Z := 60.

Definition is_status (c : call) : bool :=
  match c with Status _ _ => true | _ => false end.

Section Handlers.

(** The MQTT client, as before: [client log c] is [Some e] when the call
    [c], made after [log], raises [e]. *)
Variable client : list call -> call -> option exn.

Local Open Scope py_scope.

Definition emit (c : call) : M (list call) unit :=
  modify (fun l => l ++ [c]).

Definition call_client (c : call) : M (list call) unit :=
  past <- gets (fun l => l) ;;
  emit c ;;
  match client past c with
  | None => ret tt
  | Some e => raise e
  end.

Definition update_status (text : str) (error : bool) : M (list call) unit :=
  emit (Status text error).

(** The function [_connect] that [connect_in_thread] runs in its thread. *)
Definition _connect : M (list call) unit :=
  try_except
    (call_client (Connect BROKER PORT KEEPALIVE) ;;
     call_client LoopStart)
    (fun e => update_status (py "Connect error: " ++ exn_str e) true).

Definition on_close : M (list call) unit :=
  try_except
    (call_client LoopStop ;;
     call_client Disconnect)
    (fun _ => ret tt) ;;
  emit Destroy.

End Handlers.

End Lifecycle.

(** ** A session of the subscriber: what the user and the broker do *)

Module Session.

Import Subscriber.

Section Steps.

Variable client : list event -> event -> option exn.
Variable MQTTMessage : Type.
Variable payload_decode : MQTTMessage -> outcome str.
Variable msg_topic : MQTTMessage -> outcome str.
Variable strftime : list event -> str.

Inductive action :=
| TypeEntry (text : str)          (* the user edits the hashtag entry *)
| ClickSubscribe
| ClickUnsubscribe
| BrokerConnect (rc : Z)
| BrokerDisconnect (rc : Z)
| BrokerMessage (msg : MQTTMessage)
| Poll.                           (* the timer fires [process_queue] *)

Definition perform (a : action) : M SubscriberApp unit :=
  match a with
  | TypeEntry text =>
      modify (fun s => mkApp text (subscribed s) (msg_queue s) (log s))
  | ClickSubscribe => subscribe client
  | ClickUnsubscribe => unsubscribe client
  | BrokerConnect rc => on_connect client rc
  | BrokerDisconnect rc => on_disconnect rc
  | BrokerMessage msg => on_message payload_decode msg_topic msg
  | Poll => process_queue strftime
  end.

Definition play (acts : list action) : M SubscriberApp unit :=
  for_each acts perform.

End Steps.

(** A topic as [normalize_topic] makes them: the namespace and a tag that
    is not empty and has no whitespace around it. *)
Definition namespaced (t : str) : Prop :=
  exists tag, tag <> [] /\ trimmed tag = true /\ t = py "twitter/" ++ tag.

(** The guards of [subscribe] and [unsubscribe]: whether the handler gets
    as far as its raw call. *)
Definition calls_subscribe (s : SubscriberApp) : bool :=
  negb (is_empty (requested s)) && negb (bool_decide (requested s ∈ subscribed s)).

Definition calls_unsubscribe (s : SubscriberApp) : bool :=
  negb (is_empty (requested s)) && bool_decide (requested s ∈ subscribed s).

End Session.

(** The guards of [publish_tweet]: the three fields are filled in. *)
Definition publish_ready (p : Publisher.PublisherApp) : bool :=
  negb (is_empty (Publisher.username p))
  && negb (is_empty (Publisher.message p))
  && negb (is_empty (Publisher.requested p)).

(** A publisher's client whose calls all raise. *)
Definition broken_pipe : bool -> list event -> event -> option exn :=
  fun _ _ _ => Some (Exception (py "broken pipe")).

(** Clients for the start-up and shutdown examples. *)
Module LifecycleDemo.

Import Lifecycle.

(** The broker cannot be reached: [connect] raises. *)
Definition unreachable : list call -> call -> option exn :=
  fun _ c =>
    match c with
    | Connect _ _ _ => Some (Exception (py "timed out"))
    | _ => None
    end.

(** The network loop was never started: [loop_stop] raises. *)
Definition never_started : list call -> call -> option exn :=
  fun _ c =>
    match c with
    | LoopStop => Some (Exception (py "no loop"))
    | _ => None
    end.

End LifecycleDemo.

(** * Properties *)

(** ** Stripping *)

Section Strip.

Lemma lstrip_all_space (ws s : str) :
  all_space ws = true -> lstrip (ws ++ s) = lstrip s.
Proof.
  induction ws as [|c ws IH]; simpl; [reflexivity|].
  intros H. apply andb_true_iff in H as [Hc Hws].
  rewrite Hc. auto.
Qed.

Lemma lstrip_head (c : N) (s : str) :
  isspace c = false -> lstrip (c :: s) = c :: s.
Proof. intros H. simpl. now rewrite H. Qed.

Lemma all_space_rev (ws : str) : all_space (rev ws) = all_space ws.
Proof.
  unfold all_space. induction ws as [|c ws IH]; simpl; [reflexivity|].
  rewrite forallb_app, IH. simpl. rewrite andb_true_r. apply andb_comm.
Qed.

Lemma rstrip_all_space (s ws : str) :
  all_space ws = true -> rstrip (s ++ ws) = rstrip s.
Proof.
  intros H. unfold rstrip. rewrite rev_app_distr.
  rewrite lstrip_all_space; [reflexivity|]. now rewrite all_space_rev.
Qed.

Lemma rstrip_last (s : str) (c : N) :
  isspace c = false -> rstrip (s ++ [c]) = s ++ [c].
Proof.
  intros H. unfold rstrip. rewrite rev_app_distr.
  change (rev [c] ++ rev s) with (c :: rev s).
  rewrite lstrip_head by assumption.
  change (rev (c :: rev s)) with (rev (rev s) ++ [c]).
  now rewrite rev_involutive.
Qed.

(** A trimmed string is empty, or begins and ends with a character that
    is not whitespace. *)
Lemma trimmed_inv (t : str) :
  trimmed t = true ->
  t = [] \/
  (exists c r, t = c :: r /\ isspace c = false) /\
  (exists r c, t = r ++ [c] /\ isspace c = false).
Proof.
  destruct t as [|c r]; [now left|]. intros H. right.
  unfold trimmed in H. apply andb_true_iff in H as [H1 H2].
  apply negb_true_iff in H1, H2. split; [now exists c, r|].
  destruct (exists_last (l := c :: r)) as (r' & c' & E); [discriminate|].
  exists r', c'. split; [assumption|].
  rewrite E in H2. now rewrite last_last in H2.
Qed.

Lemma trimmed_intro (t : str) :
  (forall c r, t = c :: r -> isspace c = false) ->
  (forall r c, t = r ++ [c] -> isspace c = false) ->
  trimmed t = true.
Proof.
  intros Hh Hl. destruct t as [|c r]; [reflexivity|].
  unfold trimmed. rewrite (Hh c r eq_refl).
  destruct (exists_last (l := c :: r)) as (r' & c' & E); [discriminate|].
  rewrite E, last_last. now rewrite (Hl r' c' E).
Qed.

Lemma lstrip_spec (s : str) :
  exists ws, all_space ws = true /\ s = ws ++ lstrip s /\
             forall c r, lstrip s = c :: r -> isspace c = false.
Proof.
  induction s as [|c s (ws & Hws & E & Hh)].
  - exists []. repeat split. discriminate.
  - simpl. destruct (isspace c) eqn:Hc.
    + exists (c :: ws). simpl. rewrite Hc, Hws. repeat split; [|assumption].
      now rewrite <- E.
    + exists []. repeat split. intros c' r [= -> _]. assumption.
Qed.

Lemma rstrip_spec (s : str) :
  exists ws, all_space ws = true /\ s = rstrip s ++ ws /\
             forall r c, rstrip s = r ++ [c] -> isspace c = false.
Proof.
  destruct (lstrip_spec (rev s)) as (ws & Hws & E & Hh).
  exists (rev ws). rewrite all_space_rev. split; [assumption|]. split.
  - unfold rstrip. rewrite <- rev_app_distr, <- E. now rewrite rev_involutive.
  - intros r c Hr. unfold rstrip in Hr.
    apply (f_equal (@rev N)) in Hr. rewrite rev_involutive, rev_app_distr in Hr.
    simpl in Hr. eauto.
Qed.

(** Stripping a trimmed core wrapped in whitespace gives back the core. *)
Lemma strip_wrapped (ws1 t ws2 : str) :
  all_space ws1 = true -> all_space ws2 = true -> trimmed t = true ->
  strip (ws1 ++ t ++ ws2) = t.
Proof.
  intros H1 H2 Ht. unfold strip. rewrite lstrip_all_space by assumption.
  destruct (trimmed_inv t Ht) as [-> | [(c & r & -> & Hc) (r' & c' & E & Hc')]].
  - simpl. rewrite <- (app_nil_r ws2) at 1.
    rewrite lstrip_all_space by assumption. reflexivity.
  - rewrite <- app_comm_cons, lstrip_head by assumption.
    rewrite app_comm_cons, rstrip_all_space by assumption.
    rewrite E. now apply rstrip_last.
Qed.

Lemma strip_trimmed (s : str) : trimmed (strip s) = true.
Proof.
  unfold strip. destruct (lstrip_spec s) as (_ & _ & _ & Hh).
  destruct (rstrip_spec (lstrip s)) as (ws & Hws & E & Hl).
  apply trimmed_intro; [|assumption].
  intros c r Hr. rewrite Hr in E. simpl in E. eauto.
Qed.

Lemma strip_fixed (t : str) : trimmed t = true -> strip t = t.
Proof.
  intros Ht. rewrite <- (strip_wrapped [] t []) at 2 by auto.
  simpl. now rewrite app_nil_r.
Qed.

Lemma strip_idem (s : str) : strip (strip s) = strip s.
Proof. apply strip_fixed, strip_trimmed. Qed.

End Strip.

(** ** Topic normalisation *)

Section Normalisation.

Lemma py_hash : py "#" = [35].
Proof. reflexivity. Qed.

Lemma all_space_app (a b : str) :
  all_space a = true -> all_space b = true -> all_space (a ++ b) = true.
Proof. unfold all_space. intros Ha Hb. now rewrite forallb_app, Ha, Hb. Qed.

(** [strip] of a string that has a ['#'] right after its leading
    whitespace keeps the ['#'] and what follows, up to the trailing
    whitespace. *)
Lemma strip_hash (ws1 ws3 tag ws2 : str) :
  all_space ws1 = true -> all_space ws2 = true -> all_space ws3 = true ->
  trimmed tag = true ->
  strip (ws1 ++ 35 :: ws3 ++ tag ++ ws2) =
  35 :: (if is_empty tag then [] else ws3 ++ tag).
Proof.
  intros H1 H2 H3 Ht.
  destruct (trimmed_inv tag Ht) as [-> | [_ (r & c & -> & Hc)]].
  - simpl is_empty. cbv iota.
    change (ws1 ++ 35 :: ws3 ++ [] ++ ws2) with (ws1 ++ [35] ++ (ws3 ++ ws2)).
    apply strip_wrapped; auto using all_space_app.
  - replace (is_empty (r ++ [c])) with false by (now destruct r).
    replace (ws1 ++ 35 :: ws3 ++ (r ++ [c]) ++ ws2)
      with (ws1 ++ (35 :: ws3 ++ r ++ [c]) ++ ws2)
      by (simpl; now rewrite <- !app_assoc).
    apply strip_wrapped; auto.
    apply trimmed_intro.
    + now intros c' r' [= <- _].
    + intros r' c' E.
      change (35 :: ws3 ++ r ++ [c]) with ((35 :: ws3) ++ r ++ [c]) in E.
      rewrite app_assoc in E. apply app_inj_tail in E as [_ <-]. assumption.
Qed.

Lemma normalize_topic_same : Publisher.normalize_topic = Subscriber.normalize_topic.
Proof. reflexivity. Qed.

(** The result is empty or carries the namespace. *)
Lemma normalize_topic_cases (raw : str) :
  Subscriber.normalize_topic raw = [] \/
  exists tag, tag <> [] /\ Subscriber.normalize_topic raw = py "twitter/" ++ tag.
Proof.
  unfold Subscriber.normalize_topic.
  match goal with |- context [is_empty ?t] => destruct t as [|c r] eqn:E end.
  - now left.
  - right. exists (c :: r). split; [discriminate | reflexivity].
Qed.

(** The handlers strip the entry text before they normalise it; the
    second strip changes nothing. *)
Lemma normalize_topic_strip (raw : str) :
  Subscriber.normalize_topic (strip raw) = Subscriber.normalize_topic raw.
Proof. unfold Subscriber.normalize_topic. now rewrite strip_idem. Qed.

(** Every raw input has one of the two shapes of
    [C1_normalize_topic_shape]: blanks, a trimmed core, blanks, with or
    without a ['#'] and blanks between the leading blanks and the core. *)
Lemma every_input_has_shape (raw : str) :
  exists ws1 ws2 ws3 tag,
    all_space ws1 = true /\ all_space ws2 = true /\ all_space ws3 = true /\
    trimmed tag = true /\
    ((raw = ws1 ++ tag ++ ws2 /\ startswith tag (py "#") = false) \/
     raw = ws1 ++ py "#" ++ ws3 ++ tag ++ ws2).
Proof.
  destruct (lstrip_spec raw) as (ws1 & H1 & E1 & _).
  destruct (rstrip_spec (lstrip raw)) as (ws2 & H2 & E2 & Hl).
  pose proof (strip_trimmed raw) as Ht. unfold strip in Ht.
  destruct (rstrip (lstrip raw)) as [|c r] eqn:Ecore.
  { exists ws1, ws2, [], []. repeat split; try assumption.
    left. split; [|reflexivity]. now rewrite E1 at 1; rewrite E2. }
  destruct (N.eq_dec c 35) as [->|Hc].
  - destruct (lstrip_spec r) as (ws3 & H3 & E3 & Hh3).
    exists ws1, ws2, ws3, (lstrip r). repeat split; try assumption.
    + apply trimmed_intro; [assumption|]. intros r' c' E.
      apply (Hl (35 :: ws3 ++ r') c').
      rewrite E3 at 1. rewrite E. cbn. now rewrite <- app_assoc.
    + right. rewrite py_hash. rewrite E1 at 1. rewrite E2, E3 at 1.
      cbn. now rewrite <- !app_assoc.
  - exists ws1, ws2, [], (c :: r). repeat split; try assumption.
    left. split; [now rewrite E1 at 1; rewrite E2|].
    rewrite py_hash. change ((35 =? c) && true = false).
    rewrite (proj2 (N.eqb_neq 35 c)); [reflexivity | congruence].
Qed.

(** C1 as specified fails on the input ["#"]: the result is
    the empty string and carries no ["twitter/"] prefix. *)
Lemma C1_counterexample_hash_only :
  Subscriber.normalize_topic (py "#") = [] /\
  ~ (exists tag, Subscriber.normalize_topic (py "#") = py "twitter/" ++ tag).
Proof.
  split; [reflexivity|]. intros [tag H]. discriminate H.
Qed.

(** C1 (amended): write the raw input as whitespace, an optional ['#']
    followed by whitespace, a core [tag] that neither starts nor ends with
    whitespace, and whitespace.  [normalize_topic] removes the surrounding
    whitespace and the one ['#'] (with the whitespace after it) and returns
    ["twitter/" ++ tag] when [tag] is not empty, the empty string when it
    is.  A ['#'] at the head of [tag] itself, a second one, stays.  Both
    programs define the same function. *)
Theorem C1_normalize_topic_shape (ws1 ws2 ws3 tag : str) :
  all_space ws1 = true -> all_space ws2 = true -> all_space ws3 = true ->
  trimmed tag = true ->
  let out := if is_empty tag then [] else py "twitter/" ++ tag in
  (startswith tag (py "#") = false ->
   Subscriber.normalize_topic (ws1 ++ tag ++ ws2) = out) /\
  Subscriber.normalize_topic (ws1 ++ py "#" ++ ws3 ++ tag ++ ws2) = out /\
  Subscriber.normalize_topic (py "  #Test  ") = py "twitter/Test" /\
  Subscriber.normalize_topic (py "##Test") = py "twitter/#Test" /\
  Publisher.normalize_topic = Subscriber.normalize_topic.
Proof.
  intros H1 H2 H3 Ht out. repeat split.
  - intros Hs. unfold Subscriber.normalize_topic.
    rewrite strip_wrapped by assumption. now rewrite Hs.
  - unfold Subscriber.normalize_topic. rewrite py_hash.
    change (ws1 ++ [35] ++ ws3 ++ tag ++ ws2)
      with (ws1 ++ 35 :: ws3 ++ tag ++ ws2).
    rewrite strip_hash by assumption.
    change (startswith (35 :: ?x) [35]) with true. cbv iota.
    change (drop 1 (35 :: ?x)) with x.
    subst out. destruct tag as [|c r]; [reflexivity|].
    simpl is_empty. cbv iota.
    replace (ws3 ++ c :: r) with (ws3 ++ (c :: r) ++ [])
      by now rewrite app_nil_r.
    now rewrite strip_wrapped by auto.
Qed.

Lemma C1_normalize_topic_shape_witness :
  Subscriber.normalize_topic (py "  " ++ py "#" ++ py " " ++ py "#py" ++ py " ")
  = py "twitter/#py".
Proof.
  apply (C1_normalize_topic_shape (py "  ") (py " ") (py " ") (py "#py"));
    reflexivity.
Defined.

End Normalisation.

(** ** The subscriber's handlers, case by case *)

Arguments py : simpl never.
Arguments strip : simpl never.
Arguments Subscriber.normalize_topic : simpl never.
Arguments Publisher.normalize_topic : simpl never.

Lemma is_empty_true (t : str) : t = [] -> is_empty t = true.
Proof. now intros ->. Qed.

Lemma is_empty_false (t : str) : t <> [] -> is_empty t = false.
Proof. now destruct t. Qed.

Ltac run :=
  unfold Subscriber.update_status, Subscriber.queue_put, Subscriber.set_add,
    Subscriber.set_msg_queue, Subscriber.set_subscribed, Subscriber.emit,
    Publisher.update_status, Publisher.set_tweet_text, Publisher.emit,
    try_except, bind, gets, modify, ret, raise, exec, result;
  cbn.

Ltac same_log := rewrite <- ?app_assoc; reflexivity.

Section SubscriberCases.

Import Subscriber.

Variable client : list event -> event -> option exn.

Lemma sub_requested_eq (s : SubscriberApp) :
  requested s = normalize_topic (hashtag_entry s).
Proof. apply normalize_topic_strip. Qed.

Lemma subscribe_empty (s : SubscriberApp) :
  requested s = [] ->
  exists msg,
    subscribe client s =
    (Return tt, mkApp (hashtag_entry s) (subscribed s) (msg_queue s)
                      (log s ++ [ShowWarning (py "Empty hashtag") msg])).
Proof.
  unfold requested, subscribe. intros E. eexists. run.
  rewrite (is_empty_true _ E). reflexivity.
Qed.

Lemma subscribe_member (s : SubscriberApp) :
  requested s <> [] -> requested s ∈ subscribed s ->
  exists msg,
    subscribe client s =
    (Return tt, mkApp (hashtag_entry s) (subscribed s) (msg_queue s)
                      (log s ++ [ShowInfo (py "Already subscribed") msg])).
Proof.
  unfold requested, subscribe. intros Hne Hin. eexists. run.
  rewrite (is_empty_false _ Hne).
  rewrite bool_decide_eq_true_2 by assumption. reflexivity.
Qed.

Lemma subscribe_ok (s : SubscriberApp) :
  requested s <> [] -> requested s ∉ subscribed s ->
  client (log s) (ClientSubscribe (requested s)) = None ->
  subscribe client s =
  (Return tt,
   mkApp (hashtag_entry s) (subscribed s ∪ {[requested s]})
         (msg_queue s ++ [(requested s, py "[System] Subscribed")])
         (log s ++ [ClientSubscribe (requested s);
                    UpdateStatus (py "Subscribed to " ++ requested s) false])).
Proof.
  unfold requested, subscribe. intros Hne Hin Hc. run.
  rewrite (is_empty_false _ Hne).
  rewrite bool_decide_eq_false_2 by assumption.
  unfold call_client. run. rewrite Hc. cbn.
  same_log.
Qed.

Lemma subscribe_raises (s : SubscriberApp) (e : exn) :
  requested s <> [] -> requested s ∉ subscribed s ->
  client (log s) (ClientSubscribe (requested s)) = Some e ->
  subscribe client s =
  (Return tt,
   mkApp (hashtag_entry s) (subscribed s) (msg_queue s)
         (log s ++ [ClientSubscribe (requested s);
                    ShowError (py "Subscribe error")
                              (py "Failed to subscribe: " ++ exn_str e);
                    UpdateStatus (py "Subscribe error: " ++ exn_str e) true])).
Proof.
  unfold requested, subscribe. intros Hne Hin Hc. run.
  rewrite (is_empty_false _ Hne).
  rewrite bool_decide_eq_false_2 by assumption.
  unfold call_client. run. rewrite Hc. cbn.
  run. same_log.
Qed.

Lemma unsubscribe_empty (s : SubscriberApp) :
  requested s = [] ->
  exists msg,
    unsubscribe client s =
    (Return tt, mkApp (hashtag_entry s) (subscribed s) (msg_queue s)
                      (log s ++ [ShowWarning (py "Empty hashtag") msg])).
Proof.
  unfold requested, unsubscribe. intros E. eexists. run.
  rewrite (is_empty_true _ E). reflexivity.
Qed.

Lemma unsubscribe_absent (s : SubscriberApp) :
  requested s <> [] -> requested s ∉ subscribed s ->
  exists msg,
    unsubscribe client s =
    (Return tt, mkApp (hashtag_entry s) (subscribed s) (msg_queue s)
                      (log s ++ [ShowInfo (py "Not subscribed") msg])).
Proof.
  unfold requested, unsubscribe. intros Hne Hin. eexists. run.
  rewrite (is_empty_false _ Hne).
  rewrite bool_decide_eq_false_2 by assumption. reflexivity.
Qed.

Lemma unsubscribe_ok (s : SubscriberApp) :
  requested s <> [] -> requested s ∈ subscribed s ->
  client (log s) (ClientUnsubscribe (requested s)) = None ->
  unsubscribe client s =
  (Return tt,
   mkApp (hashtag_entry s) (subscribed s ∖ {[requested s]})
         (msg_queue s ++ [(requested s, py "[System] Unsubscribed")])
         (log s ++ [ClientUnsubscribe (requested s);
                    UpdateStatus (py "Unsubscribed from " ++ requested s)
                                 false])).
Proof.
  unfold requested, unsubscribe. intros Hne Hin Hc. run.
  rewrite (is_empty_false _ Hne).
  rewrite bool_decide_eq_true_2 by assumption.
  unfold call_client, set_remove. run. rewrite Hc. cbn.
  rewrite bool_decide_eq_true_2 by assumption. cbn.
  same_log.
Qed.

Lemma unsubscribe_raises (s : SubscriberApp) (e : exn) :
  requested s <> [] -> requested s ∈ subscribed s ->
  client (log s) (ClientUnsubscribe (requested s)) = Some e ->
  unsubscribe client s =
  (Return tt,
   mkApp (hashtag_entry s) (subscribed s) (msg_queue s)
         (log s ++ [ClientUnsubscribe (requested s);
                    ShowError (py "Unsubscribe error")
                              (py "Failed to unsubscribe: " ++ exn_str e);
                    UpdateStatus (py "Unsubscribe error: " ++ exn_str e)
                                 true])).
Proof.
  unfold requested, unsubscribe. intros Hne Hin Hc. run.
  rewrite (is_empty_false _ Hne).
  rewrite bool_decide_eq_true_2 by assumption.
  unfold call_client. run. rewrite Hc. cbn.
  run. same_log.
Qed.

End SubscriberCases.

(** ** Callbacks of the subscriber *)

Section SubscriberCallbacks.

Import Subscriber.

Variable client : list event -> event -> option exn.
Variable MQTTMessage : Type.
Variable payload_decode : MQTTMessage -> outcome str.
Variable msg_topic : MQTTMessage -> outcome str.
Variable strftime : list event -> str.

Local Open Scope py_scope.

Lemma replay_one_spec (t : str) (s : SubscriberApp) :
  exists new,
    replay_one client t s =
    (Return tt, mkApp (hashtag_entry s) (subscribed s) (msg_queue s)
                      (log s ++ new)) /\
    subscribe_topics new = [t].
Proof.
  unfold replay_one, call_client. run.
  destruct (client (log s) (ClientSubscribe t)) as [e|]; cbn.
  - exists [ClientSubscribe t]. split; reflexivity.
  - exists [ClientSubscribe t; UpdateStatus (py "Subscribed to " ++ t) false].
    split; [same_log | reflexivity].
Qed.

Lemma replay_loop (topics : list str) (s : SubscriberApp) :
  exists new,
    for_each topics (replay_one client) s =
    (Return tt, mkApp (hashtag_entry s) (subscribed s) (msg_queue s)
                      (log s ++ new)) /\
    subscribe_topics new = topics.
Proof.
  revert s. induction topics as [|t topics IH]; intros s.
  - exists []. cbn. rewrite app_nil_r. now destruct s.
  - destruct (replay_one_spec t s) as (new1 & E1 & T1).
    cbn [for_each]. unfold bind at 1. rewrite E1.
    destruct (IH (mkApp (hashtag_entry s) (subscribed s) (msg_queue s)
                        (log s ++ new1))) as (new2 & E2 & T2).
    exists (new1 ++ new2). rewrite E2. cbn. split.
    + now rewrite app_assoc.
    + unfold subscribe_topics in *. now rewrite omap_app, T1, T2.
Qed.

Lemma on_message_spec (msg : MQTTMessage) (s : SubscriberApp) :
  on_message payload_decode msg_topic msg s =
  (Return tt,
   mkApp (hashtag_entry s) (subscribed s)
         (msg_queue s ++ option_list (decoded payload_decode msg_topic msg))
         (log s)).
Proof.
  unfold on_message, decoded, lift. run.
  destruct (payload_decode msg) as [p|e]; cbn;
    [destruct (msg_topic msg) as [t|e]; cbn|];
    rewrite ?app_nil_r; now destruct s.
Qed.

Lemma on_message_loop (msgs : list MQTTMessage) (s : SubscriberApp) :
  for_each msgs (on_message payload_decode msg_topic) s =
  (Return tt,
   mkApp (hashtag_entry s) (subscribed s)
         (msg_queue s ++ omap (decoded payload_decode msg_topic) msgs)
         (log s)).
Proof.
  revert s. induction msgs as [|m msgs IH]; intros s.
  - cbn. rewrite app_nil_r. now destruct s.
  - cbn [for_each]. unfold bind at 1. rewrite on_message_spec, IH. cbn.
    rewrite <- app_assoc. do 3 f_equal.
    now destruct (decoded payload_decode msg_topic m).
Qed.

Lemma process_queue_loop_spec (fuel : nat) (s : SubscriberApp) :
  (length (msg_queue s) <= fuel)%nat ->
  exists tss,
    length tss = length (msg_queue s) /\
    process_queue_loop strftime fuel s =
    (Return tt, mkApp (hashtag_entry s) (subscribed s) []
                      (log s ++ lines_of tss (msg_queue s))).
Proof.
  revert s. induction fuel as [|fuel IH]; intros s Hlen.
  - destruct s as [h X [|item q] l]; cbn in Hlen; [|lia].
    exists []. cbn. now rewrite app_nil_r.
  - destruct s as [h X [|[topic payload] q] l].
    + exists []. cbn. now rewrite app_nil_r.
    + cbn in Hlen.
      destruct (IH (mkApp h X q
                      (l ++ [BoxInsert (display_line (strftime l) topic payload)])))
        as (tss & Hts & E); [cbn; lia|].
      exists (strftime l :: tss). cbn in *. split; [now f_equal|].
      run. rewrite E. same_log.
Qed.

Lemma process_queue_spec (s : SubscriberApp) :
  exists tss,
    length tss = length (msg_queue s) /\
    process_queue strftime s =
    (Return tt, mkApp (hashtag_entry s) (subscribed s) []
                      (log s ++ lines_of tss (msg_queue s) ++ [After 200])).
Proof.
  destruct (process_queue_loop_spec (length (msg_queue s)) s (le_n _))
    as (tss & Hts & E).
  exists tss. split; [assumption|].
  unfold process_queue. run. rewrite E. cbn. same_log.
Qed.

Lemma box_lines_of (tss : list str) (q : list (str * str)) :
  length tss = length q ->
  box_lines (lines_of tss q) =
  zip_with (fun ts item => display_line ts (fst item) (snd item)) tss q.
Proof.
  revert q. induction tss as [|ts tss IH]; intros [|item q] H;
    try discriminate; [reflexivity|].
  cbn. f_equal. apply IH. now injection H.
Qed.

End SubscriberCallbacks.

(** ** The subscriber's callbacks: replay, queue, receive *)

Section CallbackFacts.

Import Subscriber.

Variable client : list event -> event -> option exn.
Variable MQTTMessage : Type.
Variable payload_decode : MQTTMessage -> outcome str.
Variable msg_topic : MQTTMessage -> outcome str.
Variable strftime : list event -> str.

(** C2: on a successful connection ([rc = 0]) the connect callback issues
    one raw subscribe call for every topic of the subscribed set, and for
    no other topic: the topics of the raw subscribe calls it logs have no
    duplicate and are exactly the members of the set.  This holds for
    every client, so also when the raw call raises for some topics; the
    callback returns normally and leaves the set as it was. *)
Theorem C2_on_connect_replays_subscribed (s : SubscriberApp) :
  exists new,
    on_connect client 0 s =
    (Return tt, mkApp (hashtag_entry s) (subscribed s) (msg_queue s)
                      (log s ++ new)) /\
    NoDup (subscribe_topics new) /\
    (forall t, t ∈ subscribe_topics new <-> t ∈ subscribed s).
Proof.
  set (s1 := mkApp (hashtag_entry s) (subscribed s) (msg_queue s)
                   (log s ++ [UpdateStatus
                      (py "Connected to " ++ BROKER ++ py ":"
                       ++ str_of_int PORT) false])).
  destruct (replay_loop client (elements (subscribed s)) s1)
    as (new & E & T).
  exists (UpdateStatus (py "Connected to " ++ BROKER ++ py ":"
                        ++ str_of_int PORT) false :: new).
  split; [|split].
  - unfold on_connect. run. fold s1. rewrite E. subst s1. cbn. same_log.
  - change (NoDup (subscribe_topics new)). rewrite T. apply NoDup_elements.
  - intros t. change (t ∈ subscribe_topics new <-> t ∈ subscribed s).
    rewrite T. apply elem_of_elements.
Qed.

(** C3: the queue is one FIFO for all topics.  Running the receive
    callback on [msgs] appends, in that order, the messages it could
    decode to the queue; [process_queue] then empties the queue and puts
    one line per item in the messages box, in the order of the queue. *)
Theorem C3_queue_is_fifo (msgs : list MQTTMessage) (s : SubscriberApp) :
  let s1 := exec (for_each msgs (on_message payload_decode msg_topic)) s in
  let s2 := exec (process_queue strftime) s1 in
  msg_queue s1 = msg_queue s ++ omap (decoded payload_decode msg_topic) msgs /\
  msg_queue s2 = [] /\
  exists tss,
    length tss = length (msg_queue s1) /\
    box_lines (log s2) =
    box_lines (log s) ++
    zip_with (fun ts item => display_line ts (fst item) (snd item))
             tss (msg_queue s1).
Proof.
  intros s1 s2.
  assert (E1 : s1 = mkApp (hashtag_entry s) (subscribed s)
                 (msg_queue s ++ omap (decoded payload_decode msg_topic) msgs)
                 (log s)).
  { subst s1. unfold exec. now rewrite on_message_loop. }
  destruct (process_queue_spec strftime s1) as (tss & Hts & E2).
  assert (E3 : s2 = mkApp (hashtag_entry s1) (subscribed s1) []
                 (log s1 ++ lines_of tss (msg_queue s1) ++ [After 200])).
  { subst s2. unfold exec. now rewrite E2. }
  clearbody s1 s2. split; [now rewrite E1|]. split; [now rewrite E3|].
  exists tss. split; [assumption|].
  rewrite E3. cbn [log]. unfold box_lines at 1. rewrite !omap_app.
  fold (box_lines (log s1)). fold (box_lines (lines_of tss (msg_queue s1))).
  rewrite box_lines_of by assumption.
  cbn. rewrite app_nil_r. now rewrite E1.
Qed.

(** C5 (amended): the queue has no capacity and no drop counter.  After
    any run of the receive callback with no pop in between, the queue is
    the old queue followed by every decoded message: nothing is dropped
    at the head, the length grows by the number of decoded messages, and
    every call returns at once. *)
Theorem C5_queue_is_unbounded (msgs : list MQTTMessage) (s : SubscriberApp) :
  let s' := exec (for_each msgs (on_message payload_decode msg_topic)) s in
  result (for_each msgs (on_message payload_decode msg_topic)) s = Return tt /\
  msg_queue s' = msg_queue s ++ omap (decoded payload_decode msg_topic) msgs /\
  take (length (msg_queue s)) (msg_queue s') = msg_queue s /\
  length (msg_queue s') =
  (length (msg_queue s)
   + length (omap (decoded payload_decode msg_topic) msgs))%nat.
Proof.
  intros s'. subst s'. unfold exec, result. rewrite on_message_loop.
  cbn [fst snd msg_queue]. repeat split.
  - now rewrite take_app_length.
  - now rewrite length_app.
Qed.

(** C9: the receive callback returns normally on every message, whatever
    the decoding of the payload or of the topic does (each may raise); the
    only thing it changes is the queue, which gets the message when both
    decodings succeed and nothing otherwise. *)
Theorem C9_on_message_never_raises (msg : MQTTMessage) (s : SubscriberApp) :
  result (on_message payload_decode msg_topic msg) s = Return tt /\
  exec (on_message payload_decode msg_topic msg) s =
  mkApp (hashtag_entry s) (subscribed s)
        (msg_queue s ++ option_list (decoded payload_decode msg_topic msg))
        (log s).
Proof.
  unfold result, exec. now rewrite on_message_spec.
Qed.

End CallbackFacts.

(** ** The publisher's handler, case by case *)

Section PublisherCases.

Import Publisher.

Variable client : bool -> list event -> event -> option exn.

Lemma pub_requested_eq (s : PublisherApp) :
  requested s = normalize_topic (hashtag_entry s).
Proof. apply normalize_topic_strip. Qed.

(** With an empty topic the handler stops at one of its three warnings. *)
Lemma publish_empty_topic (s : PublisherApp) :
  requested s = [] ->
  exists title msg,
    publish_tweet client s =
    (Return tt, mkApp (username_entry s) (hashtag_entry s) (tweet_text s)
                      (connected s) (log s ++ [ShowWarning title msg])).
Proof.
  unfold requested, publish_tweet. intros E. run.
  destruct (is_empty (strip (username_entry s))); [eauto|].
  destruct (is_empty (strip (tweet_text s ++ [10]))); [eauto|].
  rewrite (is_empty_true _ E). eauto.
Qed.

Lemma publish_ok (s : PublisherApp) :
  username s <> [] -> message s <> [] -> requested s <> [] ->
  client (connected s) (log s) (ClientPublish (requested s) (payload s))
  = None ->
  publish_tweet client s =
  (Return tt,
   mkApp (username_entry s) (hashtag_entry s) [] (connected s)
         (log s ++ [ClientPublish (requested s) (payload s);
                    UpdateStatus (py "Published to " ++ requested s) false])).
Proof.
  unfold payload, username, message, requested, publish_tweet.
  intros Hu Hm Ht Hc. run.
  rewrite (is_empty_false _ Hu), (is_empty_false _ Hm), (is_empty_false _ Ht).
  unfold call_client. run. rewrite Hc. cbn. same_log.
Qed.

Lemma publish_raises (s : PublisherApp) (e : exn) :
  username s <> [] -> message s <> [] -> requested s <> [] ->
  client (connected s) (log s) (ClientPublish (requested s) (payload s))
  = Some e ->
  publish_tweet client s =
  (Return tt,
   mkApp (username_entry s) (hashtag_entry s) (tweet_text s) (connected s)
         (log s ++ [ClientPublish (requested s) (payload s);
                    ShowError (py "Publish error")
                              (py "Failed to publish: " ++ exn_str e);
                    UpdateStatus (py "Publish error: " ++ exn_str e) true])).
Proof.
  unfold payload, username, message, requested, publish_tweet.
  intros Hu Hm Ht Hc. run.
  rewrite (is_empty_false _ Hu), (is_empty_false _ Hm), (is_empty_false _ Ht).
  unfold call_client. run. rewrite Hc. cbn. run. same_log.
Qed.

End PublisherCases.

Lemma client_calls_app (l1 l2 : list event) :
  client_calls (l1 ++ l2) = client_calls l1 ++ client_calls l2.
Proof. apply List.filter_app. Qed.

Lemma client_calls_warning (l : list event) (title msg : str) :
  client_calls (l ++ [ShowWarning title msg]) = client_calls l.
Proof. rewrite client_calls_app. cbn. apply app_nil_r. Qed.

(** ** The button handlers *)

Section HandlerFacts.

Variable client : list event -> event -> option exn.
Variable pclient : bool -> list event -> event -> option exn.

Local Abbreviation subscribe := (Subscriber.subscribe client).
Local Abbreviation unsubscribe := (Subscriber.unsubscribe client).
Local Abbreviation publish_tweet := (Publisher.publish_tweet pclient).
Local Abbreviation subscribed := Subscriber.subscribed.
Local Abbreviation SubscriberApp := Subscriber.SubscriberApp.
Local Abbreviation PublisherApp := Publisher.PublisherApp.

(** Whatever happens, [subscribe] returns normally and leaves the entry
    text alone. *)
Lemma subscribe_total (s : SubscriberApp) :
  exists X q l,
    subscribe s = (Return tt, Subscriber.mkApp (Subscriber.hashtag_entry s) X q l).
Proof.
  destruct (decide (Subscriber.requested s = [])) as [E|Hne].
  { destruct (subscribe_empty client s E) as (msg & ->). eauto. }
  destruct (decide (Subscriber.requested s ∈ subscribed s)) as [Hin|Hin].
  { destruct (subscribe_member client s Hne Hin) as (msg & ->). eauto. }
  destruct (client (Subscriber.log s)
              (ClientSubscribe (Subscriber.requested s))) as [e|] eqn:Hc.
  - rewrite (subscribe_raises client s e Hne Hin Hc). eauto.
  - rewrite (subscribe_ok client s Hne Hin Hc). eauto.
Qed.

Lemma subscribe_member_set (s : SubscriberApp) :
  Subscriber.requested s ∈ subscribed s ->
  subscribed (exec subscribe s) = subscribed s.
Proof.
  intros Hin. unfold exec.
  destruct (decide (Subscriber.requested s = [])) as [E|Hne].
  - now destruct (subscribe_empty client s E) as (msg & ->).
  - now destruct (subscribe_member client s Hne Hin) as (msg & ->).
Qed.

(** C6: a subscribe request for a topic that is already in the subscribed
    set leaves the set as it is, and so does a second subscribe request
    right after a first one that put the topic in the set; an unsubscribe
    request for a topic that is not in the set leaves the set as it is. *)
Theorem C6_subscribed_set_idempotent (s1 s2 : SubscriberApp) :
  Subscriber.requested s1 ∈ subscribed s1 ->
  Subscriber.requested s2 ∉ subscribed s2 ->
  subscribed (exec subscribe s1) = subscribed s1 /\
  subscribed (exec subscribe (exec subscribe s1)) = subscribed s1 /\
  subscribed (exec unsubscribe s2) = subscribed s2.
Proof.
  intros H1 H2. split; [|split].
  - now apply subscribe_member_set.
  - rewrite subscribe_member_set; [now apply subscribe_member_set|].
    rewrite subscribe_member_set by assumption.
    unfold exec. destruct (subscribe_total s1) as (X & q & l & ->).
    exact H1.
  - unfold exec.
    destruct (decide (Subscriber.requested s2 = [])) as [E|Hne].
    + now destruct (unsubscribe_empty client s2 E) as (msg & ->).
    + now destruct (unsubscribe_absent client s2 Hne H2) as (msg & ->).
Qed.

(** C7: when the entry text normalises to the empty string, [subscribe],
    [unsubscribe] and [publish_tweet] return after a warning box: no call
    reaches the MQTT client and the subscribed set, the queue and the
    tweet text are as before.  ["#"] and a run of blanks are such
    inputs. *)
Theorem C7_empty_topic_rejected (s : SubscriberApp) (p : PublisherApp) :
  Subscriber.normalize_topic (Subscriber.hashtag_entry s) = [] ->
  Publisher.normalize_topic (Publisher.hashtag_entry p) = [] ->
  (result subscribe s = Return tt /\
   subscribed (exec subscribe s) = subscribed s /\
   Subscriber.msg_queue (exec subscribe s) = Subscriber.msg_queue s /\
   client_calls (Subscriber.log (exec subscribe s))
   = client_calls (Subscriber.log s)) /\
  (result unsubscribe s = Return tt /\
   subscribed (exec unsubscribe s) = subscribed s /\
   Subscriber.msg_queue (exec unsubscribe s) = Subscriber.msg_queue s /\
   client_calls (Subscriber.log (exec unsubscribe s))
   = client_calls (Subscriber.log s)) /\
  (result publish_tweet p = Return tt /\
   Publisher.tweet_text (exec publish_tweet p) = Publisher.tweet_text p /\
   client_calls (Publisher.log (exec publish_tweet p))
   = client_calls (Publisher.log p)) /\
  Subscriber.normalize_topic (py "#") = [] /\
  Subscriber.normalize_topic (py "   ") = [].
Proof.
  intros Hs Hp. rewrite <- sub_requested_eq in Hs.
  rewrite <- pub_requested_eq in Hp. unfold result, exec.
  destruct (subscribe_empty client s Hs) as (m1 & ->).
  destruct (unsubscribe_empty client s Hs) as (m2 & ->).
  destruct (publish_empty_topic pclient p Hp) as (t3 & m3 & ->).
  cbn [fst snd Subscriber.subscribed Subscriber.msg_queue Subscriber.log
       Publisher.tweet_text Publisher.log].
  rewrite !client_calls_warning. repeat split.
Qed.

(** C8 (amended): the store is a plain set.  An unsubscribe request for a
    topic of the set whose raw unsubscribe call returns normally removes
    the topic from the set, and keeps every other topic. *)
Theorem C8_unsubscribe_deletes_topic (s : SubscriberApp) :
  Subscriber.requested s <> [] ->
  Subscriber.requested s ∈ subscribed s ->
  client (Subscriber.log s) (ClientUnsubscribe (Subscriber.requested s))
  = None ->
  subscribed (exec unsubscribe s) = subscribed s ∖ {[Subscriber.requested s]} /\
  (Subscriber.requested s ∉ subscribed (exec unsubscribe s)) /\
  (forall t, t <> Subscriber.requested s ->
             t ∈ subscribed (exec unsubscribe s) <-> t ∈ subscribed s).
Proof.
  intros Hne Hin Hc. unfold exec.
  rewrite (unsubscribe_ok client s Hne Hin Hc). cbn [snd Subscriber.subscribed].
  split; [reflexivity|]. split.
  - rewrite elem_of_difference, elem_of_singleton. tauto.
  - intros t Ht. rewrite elem_of_difference, elem_of_singleton. tauto.
Qed.

(** C10: each request is atomic with respect to a failure of its raw
    call, for every client.  When the raw subscribe call raises, the
    handler shows the error and the subscribed set is as before, without
    the topic; when the raw unsubscribe call raises, the set is as before,
    with the topic.  In both cases the queue is untouched and the handler
    returns normally.  The two halves stand on their own: each has only
    the premises of its own request. *)
Theorem C10_failed_raw_call_keeps_set (s1 s2 : SubscriberApp) (e1 e2 : exn) :
  (Subscriber.requested s1 <> [] ->
   Subscriber.requested s1 ∉ subscribed s1 ->
   client (Subscriber.log s1) (ClientSubscribe (Subscriber.requested s1))
   = Some e1 ->
   result subscribe s1 = Return tt /\
   subscribed (exec subscribe s1) = subscribed s1 /\
   (Subscriber.requested s1 ∉ subscribed (exec subscribe s1)) /\
   Subscriber.msg_queue (exec subscribe s1) = Subscriber.msg_queue s1 /\
   client_calls (Subscriber.log (exec subscribe s1))
   = client_calls (Subscriber.log s1)
     ++ [ClientSubscribe (Subscriber.requested s1)]) /\
  (Subscriber.requested s2 <> [] ->
   Subscriber.requested s2 ∈ subscribed s2 ->
   client (Subscriber.log s2) (ClientUnsubscribe (Subscriber.requested s2))
   = Some e2 ->
   result unsubscribe s2 = Return tt /\
   subscribed (exec unsubscribe s2) = subscribed s2 /\
   (Subscriber.requested s2 ∈ subscribed (exec unsubscribe s2)) /\
   Subscriber.msg_queue (exec unsubscribe s2) = Subscriber.msg_queue s2 /\
   client_calls (Subscriber.log (exec unsubscribe s2))
   = client_calls (Subscriber.log s2)
     ++ [ClientUnsubscribe (Subscriber.requested s2)]).
Proof.
  split.
  - intros Hne1 Hin1 Hc1. unfold result, exec.
    rewrite (subscribe_raises client s1 e1 Hne1 Hin1 Hc1).
    cbn [fst snd Subscriber.subscribed Subscriber.msg_queue Subscriber.log].
    rewrite !client_calls_app. repeat split; assumption.
  - intros Hne2 Hin2 Hc2. unfold result, exec.
    rewrite (unsubscribe_raises client s2 e2 Hne2 Hin2 Hc2).
    cbn [fst snd Subscriber.subscribed Subscriber.msg_queue Subscriber.log].
    rewrite !client_calls_app. repeat split; assumption.
Qed.

(** C4 (amended): [publish_tweet] does not look at the connection.  With a
    username, a message and a topic that are not empty, and the connection
    not up, it hands the topic and the payload ["<username>: <message>"] to
    the client's publish call, once, and returns normally whether that
    call raises or not. *)
Theorem C4_publish_ignores_connection (p : PublisherApp) :
  Publisher.connected p = false ->
  Publisher.username p <> [] -> Publisher.message p <> [] ->
  Publisher.requested p <> [] ->
  result publish_tweet p = Return tt /\
  client_calls (Publisher.log (exec publish_tweet p))
  = client_calls (Publisher.log p)
    ++ [ClientPublish (Publisher.requested p) (Publisher.payload p)].
Proof.
  intros _ Hu Hm Ht. unfold result, exec.
  destruct (pclient (Publisher.connected p) (Publisher.log p)
              (ClientPublish (Publisher.requested p) (Publisher.payload p)))
    as [e|] eqn:Hc.
  - rewrite (publish_raises pclient p e Hu Hm Ht Hc).
    cbn [fst snd Publisher.log]. now rewrite client_calls_app.
  - rewrite (publish_ok pclient p Hu Hm Ht Hc).
    cbn [fst snd Publisher.log]. now rewrite client_calls_app.
Qed.

End HandlerFacts.

(** ** Concrete runs *)

Section Runs.

Import Demo.

Ltac by_eval := apply (bool_decide_unpack _); vm_compute; exact I.

Lemma C6_subscribed_set_idempotent_witness :
  Subscriber.subscribed (exec (Subscriber.subscribe quiet) following)
  = Subscriber.subscribed following /\
  Subscriber.subscribed
    (exec (Subscriber.subscribe quiet)
          (exec (Subscriber.subscribe quiet) following))
  = Subscriber.subscribed following /\
  Subscriber.subscribed (exec (Subscriber.unsubscribe quiet) (fresh (py "#a")))
  = Subscriber.subscribed (fresh (py "#a")).
Proof.
  apply (C6_subscribed_set_idempotent quiet following (fresh (py "#a"))).
  - by_eval.
  - by_eval.
Defined.

Lemma C7_empty_topic_rejected_witness :
  client_calls (Subscriber.log
                  (exec (Subscriber.subscribe down) (fresh (py " # "))))
  = [] /\
  client_calls (Publisher.log
                  (exec (Publisher.publish_tweet paho)
                        (offline (py "anon_user") (py "#") (py "hello"))))
  = [].
Proof.
  destruct (C7_empty_topic_rejected down paho (fresh (py " # "))
              (offline (py "anon_user") (py "#") (py "hello")))
    as ((_ & _ & _ & Hs) & _ & (_ & _ & Hp) & _); [reflexivity ..|].
  split; [exact Hs | exact Hp].
Defined.

(** C8 as specified fails: after Subscribe then Unsubscribe
    on ["#a"], both raw calls returning normally, the topic that was in
    the store is no longer there; the store is empty again. *)
Lemma C8_counterexample_topic_deleted :
  let s1 := exec (Subscriber.subscribe quiet) (fresh (py "#a")) in
  let s2 := exec (Subscriber.unsubscribe quiet) s1 in
  py "twitter/a" ∈ Subscriber.subscribed s1 /\
  (py "twitter/a" ∉ Subscriber.subscribed s2) /\
  elements (Subscriber.subscribed s2) = [].
Proof.
  intros s1 s2. split; [|split].
  - by_eval.
  - by_eval.
  - vm_compute. reflexivity.
Qed.

Lemma C8_unsubscribe_deletes_topic_witness :
  py "twitter/a" ∉
  Subscriber.subscribed (exec (Subscriber.unsubscribe quiet) following).
Proof.
  apply (C8_unsubscribe_deletes_topic quiet following).
  - discriminate.
  - by_eval.
  - reflexivity.
Defined.

Lemma C10_failed_raw_call_keeps_set_witness :
  Subscriber.subscribed
    (exec (Subscriber.subscribe (refuses (py "twitter/a"))) (fresh (py "#a")))
  = ∅ /\
  Subscriber.subscribed (exec (Subscriber.unsubscribe down) following)
  = {[py "twitter/a"]}.
Proof.
  split.
  - apply (proj1 (C10_failed_raw_call_keeps_set (refuses (py "twitter/a"))
                    (fresh (py "#a")) following
                    (Exception (py "refused")) (Exception (py "refused")))).
    + discriminate.
    + by_eval.
    + reflexivity.
  - apply (proj2 (C10_failed_raw_call_keeps_set down
                    (fresh (py "#a")) following
                    (Exception (py "not connected"))
                    (Exception (py "not connected")))).
    + discriminate.
    + by_eval.
    + reflexivity.
Defined.

(** C4 as specified fails: with the connection not up,
    [publish_tweet] calls the client's publish primitive, reports
    ["Published to twitter/test"] and clears the tweet; it returns no
    error. *)
Lemma C4_counterexample_publish_offline :
  let p := offline (py "anon_user") (py "#test") (py "hello") in
  Publisher.connected p = false /\
  Publisher.publish_tweet paho p =
  (Return tt,
   Publisher.mkApp (py "anon_user") (py "#test") [] false
     [ClientPublish (py "twitter/test") (py "anon_user: hello");
      UpdateStatus (py "Published to twitter/test") false]).
Proof. split; reflexivity. Qed.

Lemma C4_publish_ignores_connection_witness :
  client_calls (Publisher.log
    (exec (Publisher.publish_tweet paho)
          (offline (py "anon_user") (py "#test") (py "hello"))))
  = [ClientPublish (py "twitter/test") (py "anon_user: hello")].
Proof.
  apply (C4_publish_ignores_connection paho
           (offline (py "anon_user") (py "#test") (py "hello")));
    [reflexivity | discriminate ..].
Defined.

(** C5 as specified fails for every capacity [cap]: after
    [cap + 1] pushes with no pop the queue still holds all of them, the
    first one too. *)
Lemma C5_counterexample_no_capacity :
  ~ (exists cap : nat, forall msgs : list (str * str),
        length msgs = S cap ->
        Subscriber.msg_queue
          (exec (for_each msgs (Subscriber.on_message plain_payload plain_topic))
                (fresh []))
        = drop 1 msgs).
Proof.
  intros [cap H]. specialize (H (replicate (S cap) ([], []))).
  rewrite length_replicate in H. specialize (H eq_refl).
  apply (f_equal length) in H. revert H.
  unfold exec. rewrite on_message_loop. cbn [snd Subscriber.msg_queue].
  rewrite length_drop, length_replicate.
  replace (omap (Subscriber.decoded plain_payload plain_topic)
                (replicate (S cap) ([], [])))
    with (replicate (S cap) (@nil N, @nil N)).
  - rewrite length_app, length_replicate. cbn. lia.
  - generalize (S cap). intros n. induction n as [|n IH]; [reflexivity|].
    cbn. now rewrite <- IH.
Qed.

(** A client that refuses [twitter/a] still gets the call for
    [twitter/b] when the connection comes up. *)
Example replay_survives_a_refusal :
  let s := Subscriber.mkApp [] {[py "twitter/a"; py "twitter/b"]} [] [] in
  subscribe_topics
    (Subscriber.log (exec (Subscriber.on_connect (refuses (py "twitter/a")) 0) s))
  ≡ₚ [py "twitter/a"; py "twitter/b"].
Proof.
  intros s. vm_compute subscribe_topics.
  first [reflexivity | apply Permutation_swap].
Qed.

(** m1 on topic A, m2 on topic B, m3 on topic A come out as m1, m2, m3. *)
Example three_messages_in_order :
  let m1 := (py "twitter/A", py "m1") in
  let m2 := (py "twitter/B", py "m2") in
  let m3 := (py "twitter/A", py "m3") in
  let s1 := exec (for_each [m1; m2; m3]
                    (Subscriber.on_message plain_payload plain_topic))
                 (fresh []) in
  Subscriber.msg_queue s1 = [m1; m2; m3] /\
  box_lines (Subscriber.log (exec (Subscriber.process_queue noon) s1))
  = [Subscriber.display_line (noon []) (py "twitter/A") (py "m1");
     Subscriber.display_line (noon []) (py "twitter/B") (py "m2");
     Subscriber.display_line (noon []) (py "twitter/A") (py "m3")].
Proof. split; reflexivity. Qed.

(** A payload that cannot be decoded is dropped and the callback still
    returns. *)
Example broken_message_is_swallowed :
  Subscriber.on_message broken_payload plain_topic (py "twitter/A", py "m1")
                        (fresh [])
  = (Return tt, fresh []).
Proof. reflexivity. Qed.

End Runs.

(** * Further properties of the two programs *)

(** ** More on topic normalisation *)

Section MoreNormalisation.

Lemma strip_split (s : str) :
  exists a b, all_space a = true /\ all_space b = true /\
              s = a ++ strip s ++ b.
Proof.
  destruct (lstrip_spec s) as (a & Ha & Ea & _).
  destruct (rstrip_spec (lstrip s)) as (b & Hb & Eb & _).
  exists a, b. repeat split; try assumption.
  unfold strip. now rewrite <- Eb.
Qed.

(** Whitespace around a string does not change what [strip] returns. *)
Lemma strip_padding (ws1 s ws2 : str) :
  all_space ws1 = true -> all_space ws2 = true ->
  strip (ws1 ++ s ++ ws2) = strip s.
Proof.
  intros H1 H2. destruct (strip_split s) as (a & b & Ha & Hb & E).
  rewrite E at 1.
  replace (ws1 ++ (a ++ strip s ++ b) ++ ws2)
    with ((ws1 ++ a) ++ strip s ++ (b ++ ws2))
    by now rewrite <- !app_assoc.
  apply strip_wrapped; auto using all_space_app, strip_trimmed.
Qed.

Lemma strip_all_space (ws : str) : all_space ws = true -> strip ws = [].
Proof.
  intros H. rewrite <- (app_nil_r ws).
  change (ws ++ []) with (ws ++ [] ++ []) at 1.
  rewrite <- (app_nil_r (ws ++ [] ++ [])).
  rewrite <- app_assoc. now apply strip_wrapped.
Qed.

(** The result of [normalize_topic], through the tag it is built on. *)
Lemma normalize_topic_tag (raw : str) :
  exists tag,
    trimmed tag = true /\
    Subscriber.normalize_topic raw
    = if is_empty tag then [] else py "twitter/" ++ tag.
Proof.
  unfold Subscriber.normalize_topic.
  destruct (startswith (strip raw) (py "#")).
  - exists (strip (drop 1 (strip raw))). split; [apply strip_trimmed | reflexivity].
  - exists (strip raw). split; [apply strip_trimmed | reflexivity].
Qed.

Lemma trimmed_namespace (tag : str) :
  tag <> [] -> trimmed tag = true -> trimmed (py "twitter/" ++ tag) = true.
Proof.
  intros Hne Ht.
  destruct (trimmed_inv tag Ht) as [-> | [_ (r & c & -> & Hc)]]; [congruence|].
  apply trimmed_intro.
  - intros c' r' E. vm_compute in E. injection E as <- _. reflexivity.
  - intros r' c' E. rewrite app_assoc in E.
    apply app_inj_tail in E as [_ <-]. assumption.
Qed.

(** X1: whitespace around the raw hashtag never matters. *)
Theorem X1_normalize_topic_ignores_padding (ws1 raw ws2 : str) :
  all_space ws1 = true -> all_space ws2 = true ->
  Subscriber.normalize_topic (ws1 ++ raw ++ ws2)
  = Subscriber.normalize_topic raw /\
  Publisher.normalize_topic (ws1 ++ raw ++ ws2)
  = Publisher.normalize_topic raw.
Proof.
  intros H1 H2. rewrite normalize_topic_same.
  unfold Subscriber.normalize_topic.
  now rewrite strip_padding by assumption.
Qed.

Lemma X1_normalize_topic_ignores_padding_witness :
  Subscriber.normalize_topic (py " " ++ py "#news" ++ [9; 10])
  = Subscriber.normalize_topic (py "#news").
Proof.
  apply (X1_normalize_topic_ignores_padding (py " ") (py "#news") [9; 10]);
    reflexivity.
Defined.

(** X2: a topic returned by [normalize_topic] is the empty string or the
    namespace followed by a tag that is not empty and has no whitespace
    around it; so it is never the bare namespace, and it has at least
    nine characters. *)
Theorem X2_normalize_topic_result (raw : str) :
  Subscriber.normalize_topic raw = [] \/
  (Session.namespaced (Subscriber.normalize_topic raw) /\
   Subscriber.normalize_topic raw <> py "twitter/" /\
   trimmed (Subscriber.normalize_topic raw) = true /\
   (9 <= length (Subscriber.normalize_topic raw))%nat).
Proof.
  destruct (normalize_topic_tag raw) as (tag & Ht & ->).
  destruct tag as [|c r]; [now left|]. right. cbn [is_empty].
  split; [|split; [|split]].
  - exists (c :: r). repeat split; [discriminate | assumption].
  - intros E. apply (f_equal length) in E. rewrite length_app in E.
    change (length (py "twitter/")) with 8%nat in E. cbn [length] in E. lia.
  - apply trimmed_namespace; [discriminate | assumption].
  - rewrite length_app. change (length (py "twitter/")) with 8%nat.
    cbn [length]. lia.
Qed.

(** X3: the ['#'] is optional.  A raw hashtag whose text does not itself
    begin with ['#'] gives the same topic with a ['#'] (and blanks) put in
    front of it. *)
Theorem X3_hash_is_optional (ws1 ws3 raw : str) :
  all_space ws1 = true -> all_space ws3 = true ->
  startswith (strip raw) (py "#") = false ->
  Subscriber.normalize_topic (ws1 ++ py "#" ++ ws3 ++ raw)
  = Subscriber.normalize_topic raw.
Proof.
  intros H1 H3 Hs.
  destruct (strip_split raw) as (a & b & Ha & Hb & E).
  pose proof (strip_trimmed raw) as Ht.
  unfold Subscriber.normalize_topic at 2. rewrite Hs.
  rewrite E at 1. unfold Subscriber.normalize_topic. rewrite py_hash.
  replace (ws1 ++ [35] ++ ws3 ++ a ++ strip raw ++ b)
    with (ws1 ++ 35 :: (ws3 ++ a) ++ strip raw ++ b)
    by (cbn; now rewrite <- !app_assoc).
  rewrite strip_hash by auto using all_space_app.
  change (startswith (35 :: ?x) [35]) with true. cbv iota.
  change (drop 1 (35 :: ?x)) with x.
  destruct (strip raw) as [|c r] eqn:Ec; [reflexivity|].
  cbn [is_empty]. cbv iota.
  replace ((ws3 ++ a) ++ c :: r) with ((ws3 ++ a) ++ (c :: r) ++ [])
    by now rewrite app_nil_r.
  now rewrite strip_wrapped by auto using all_space_app.
Qed.

Lemma X3_hash_is_optional_witness :
  Subscriber.normalize_topic ([] ++ py "#" ++ [] ++ py "python")
  = Subscriber.normalize_topic (py "python").
Proof.
  apply (X3_hash_is_optional [] [] (py "python")); reflexivity.
Defined.

(** X4: normalising twice nests the namespace.  A topic that is not empty
    is not a fixed point: fed back as a hashtag it gets the namespace a
    second time. *)
Theorem X4_normalize_topic_twice (raw : str) :
  Subscriber.normalize_topic (Subscriber.normalize_topic raw)
  = if is_empty (Subscriber.normalize_topic raw) then []
    else py "twitter/" ++ Subscriber.normalize_topic raw.
Proof.
  destruct (normalize_topic_tag raw) as (tag & Ht & ->).
  destruct tag as [|c r]; [reflexivity|]. cbn [is_empty].
  assert (Hn : trimmed (py "twitter/" ++ c :: r) = true)
    by (apply trimmed_namespace; [discriminate | assumption]).
  unfold Subscriber.normalize_topic. rewrite (strip_fixed _ Hn).
  reflexivity.
Qed.

End MoreNormalisation.

(** ** More on Subscribe and Unsubscribe *)

Section MoreHandlers.

Import Subscriber.

Variable client : list event -> event -> option exn.

(** [subscribe] in one equation: [fires] says whether the raw call is
    made, [ok] whether it is made and returns. *)
Lemma subscribe_effect (s : SubscriberApp) :
  let t := requested s in
  let fires := Session.calls_subscribe s in
  let ok := fires && returns_normally (client (log s) (ClientSubscribe t)) in
  exists rest,
    client_calls rest = [] /\
    subscribe client s =
    (Return tt,
     mkApp (hashtag_entry s)
           (if ok then subscribed s ∪ {[t]} else subscribed s)
           (msg_queue s ++ if ok then [(t, py "[System] Subscribed")] else [])
           (log s ++ (if fires then [ClientSubscribe t] else []) ++ rest)).
Proof.
  intros t fires ok. subst t fires ok. unfold Session.calls_subscribe.
  destruct (decide (requested s = [])) as [E|Hne].
  { destruct (subscribe_empty client s E) as (msg & ->).
    rewrite (is_empty_true _ E). cbn [negb andb app].
    rewrite app_nil_r. eexists. split; [|reflexivity]. reflexivity. }
  rewrite (is_empty_false _ Hne).
  destruct (decide (requested s ∈ subscribed s)) as [Hin|Hin].
  { destruct (subscribe_member client s Hne Hin) as (msg & ->).
    rewrite bool_decide_eq_true_2 by assumption. cbn [negb andb app].
    rewrite app_nil_r. eexists. split; [|reflexivity]. reflexivity. }
  rewrite bool_decide_eq_false_2 by assumption.
  destruct (client (log s) (ClientSubscribe (requested s))) as [e|] eqn:Hc.
  - rewrite (subscribe_raises client s e Hne Hin Hc). cbn [negb andb app returns_normally].
    rewrite app_nil_r. eexists. split; [|reflexivity]. reflexivity.
  - rewrite (subscribe_ok client s Hne Hin Hc). cbn [negb andb app returns_normally].
    eexists. split; [|reflexivity]. reflexivity.
Qed.

Lemma unsubscribe_effect (s : SubscriberApp) :
  let t := requested s in
  let fires := Session.calls_unsubscribe s in
  let ok := fires && returns_normally (client (log s) (ClientUnsubscribe t)) in
  exists rest,
    client_calls rest = [] /\
    unsubscribe client s =
    (Return tt,
     mkApp (hashtag_entry s)
           (if ok then subscribed s ∖ {[t]} else subscribed s)
           (msg_queue s ++ if ok then [(t, py "[System] Unsubscribed")] else [])
           (log s ++ (if fires then [ClientUnsubscribe t] else []) ++ rest)).
Proof.
  intros t fires ok. subst t fires ok. unfold Session.calls_unsubscribe.
  destruct (decide (requested s = [])) as [E|Hne].
  { destruct (unsubscribe_empty client s E) as (msg & ->).
    rewrite (is_empty_true _ E). cbn [negb andb app].
    rewrite app_nil_r. eexists. split; [|reflexivity]. reflexivity. }
  rewrite (is_empty_false _ Hne).
  destruct (decide (requested s ∈ subscribed s)) as [Hin|Hin].
  2:{ destruct (unsubscribe_absent client s Hne Hin) as (msg & ->).
      rewrite bool_decide_eq_false_2 by assumption. cbn [negb andb app].
      rewrite app_nil_r. eexists. split; [|reflexivity]. reflexivity. }
  rewrite bool_decide_eq_true_2 by assumption.
  destruct (client (log s) (ClientUnsubscribe (requested s))) as [e|] eqn:Hc.
  - rewrite (unsubscribe_raises client s e Hne Hin Hc). cbn [negb andb app returns_normally].
    rewrite app_nil_r. eexists. split; [|reflexivity]. reflexivity.
  - rewrite (unsubscribe_ok client s Hne Hin Hc). cbn [negb andb app returns_normally].
    eexists. split; [|reflexivity]. reflexivity.
Qed.

End MoreHandlers.

Section HandlerEffects.

Import Subscriber.

Variable client : list event -> event -> option exn.

(** X5: the two handlers return normally for every client and touch at
    most the requested topic.  [subscribe] removes nothing and can add
    only the requested topic; [unsubscribe] adds nothing and can remove
    only the requested topic.  Neither changes the entry text. *)
Theorem X5_handlers_touch_only_requested_topic (s : SubscriberApp) :
  let s1 := exec (subscribe client) s in
  let s2 := exec (unsubscribe client) s in
  (result (subscribe client) s = Return tt /\
   subscribed s ⊆ subscribed s1 /\
   subscribed s1 ⊆ subscribed s ∪ {[requested s]} /\
   hashtag_entry s1 = hashtag_entry s) /\
  (result (unsubscribe client) s = Return tt /\
   subscribed s2 ⊆ subscribed s /\
   subscribed s ∖ {[requested s]} ⊆ subscribed s2 /\
   hashtag_entry s2 = hashtag_entry s).
Proof.
  intros s1 s2. subst s1 s2. unfold result, exec.
  destruct (subscribe_effect client s) as (r1 & _ & ->).
  destruct (unsubscribe_effect client s) as (r2 & _ & ->).
  cbn [fst snd subscribed hashtag_entry].
  split; (split; [reflexivity|]).
  - destruct (_ && _); repeat split; set_solver.
  - destruct (_ && _); repeat split; set_solver.
Qed.

(** X6: a click makes at most one raw call, and makes it exactly when its
    guards pass: [subscribe] when the topic is not empty and not in the
    set, [unsubscribe] when the topic is not empty and in the set. *)
Theorem X6_raw_call_iff_guards_pass (s : SubscriberApp) :
  client_calls (log (exec (subscribe client) s))
  = client_calls (log s)
    ++ (if Session.calls_subscribe s
        then [ClientSubscribe (requested s)] else []) /\
  client_calls (log (exec (unsubscribe client) s))
  = client_calls (log s)
    ++ (if Session.calls_unsubscribe s
        then [ClientUnsubscribe (requested s)] else []).
Proof.
  unfold exec.
  destruct (subscribe_effect client s) as (r1 & H1 & ->).
  destruct (unsubscribe_effect client s) as (r2 & H2 & ->).
  cbn [snd log]. rewrite !client_calls_app, H1, H2, !app_nil_r.
  split; f_equal.
  - now destruct (Session.calls_subscribe s).
  - now destruct (Session.calls_unsubscribe s).
Qed.

(** X7: a "[System]" note is queued exactly when the subscribed set
    changed; a rejected or failed request queues nothing. *)
Theorem X7_note_iff_set_changed (s : SubscriberApp) :
  let s1 := exec (subscribe client) s in
  let s2 := exec (unsubscribe client) s in
  msg_queue s1
  = msg_queue s
    ++ (if bool_decide (subscribed s1 = subscribed s) then []
        else [(requested s, py "[System] Subscribed")]) /\
  msg_queue s2
  = msg_queue s
    ++ (if bool_decide (subscribed s2 = subscribed s) then []
        else [(requested s, py "[System] Unsubscribed")]).
Proof.
  intros s1 s2. subst s1 s2. unfold exec.
  destruct (subscribe_effect client s) as (r1 & _ & ->).
  destruct (unsubscribe_effect client s) as (r2 & _ & ->).
  cbn [snd subscribed msg_queue]. unfold Session.calls_subscribe,
    Session.calls_unsubscribe. split.
  - destruct (is_empty (requested s)); cbn [negb andb];
      [now rewrite bool_decide_eq_true_2|].
    destruct (decide (requested s ∈ subscribed s)) as [Hin|Hin].
    + rewrite (bool_decide_eq_true_2 _ Hin). cbn [negb andb].
      now rewrite bool_decide_eq_true_2.
    + rewrite (bool_decide_eq_false_2 _ Hin). cbn [negb andb].
      destruct (returns_normally _); [|now rewrite bool_decide_eq_true_2].
      rewrite bool_decide_eq_false_2; [reflexivity|]. set_solver.
  - destruct (is_empty (requested s)); cbn [negb andb];
      [now rewrite bool_decide_eq_true_2|].
    destruct (decide (requested s ∈ subscribed s)) as [Hin|Hin].
    + rewrite (bool_decide_eq_true_2 _ Hin). cbn [negb andb].
      destruct (returns_normally _); [|now rewrite bool_decide_eq_true_2].
      rewrite bool_decide_eq_false_2; [reflexivity|]. set_solver.
    + rewrite (bool_decide_eq_false_2 _ Hin). cbn [negb andb].
      now rewrite bool_decide_eq_true_2.
Qed.

(** X8: Subscribe then Unsubscribe on a new topic, with a client whose
    calls return, is a round trip on the subscribed set.  What stays is
    one raw subscribe and one raw unsubscribe call in the log and the two
    notes in the queue, in that order. *)
Theorem X8_subscribe_unsubscribe_round_trip (s : SubscriberApp) :
  (forall l ev, client l ev = None) ->
  requested s <> [] -> requested s ∉ subscribed s ->
  let s' := exec (unsubscribe client) (exec (subscribe client) s) in
  subscribed s' = subscribed s /\
  msg_queue s'
  = msg_queue s ++ [(requested s, py "[System] Subscribed");
                    (requested s, py "[System] Unsubscribed")] /\
  client_calls (log s')
  = client_calls (log s) ++ [ClientSubscribe (requested s);
                             ClientUnsubscribe (requested s)].
Proof.
  intros Hq Hne Hin s'. subst s'. unfold exec at 2 4 6.
  rewrite (subscribe_ok client s Hne Hin (Hq _ _)). cbn [snd].
  set (s1 := mkApp _ _ _ _).
  assert (E : requested s1 = requested s) by reflexivity.
  unfold exec. rewrite (unsubscribe_ok client s1).
  - rewrite E. subst s1. cbn [snd subscribed msg_queue log].
    rewrite !client_calls_app, <- !app_assoc. repeat split. set_solver.
  - now rewrite E.
  - rewrite E. subst s1. cbn [subscribed]. set_solver.
  - apply Hq.
Qed.

End HandlerEffects.

Lemma X8_subscribe_unsubscribe_round_trip_witness :
  Subscriber.subscribed
    (exec (Subscriber.unsubscribe Demo.quiet)
          (exec (Subscriber.subscribe Demo.quiet) (Demo.fresh (py "#a"))))
  = Subscriber.subscribed (Demo.fresh (py "#a")).
Proof.
  apply (X8_subscribe_unsubscribe_round_trip Demo.quiet (Demo.fresh (py "#a"))).
  - reflexivity.
  - discriminate.
  - apply (bool_decide_unpack _). vm_compute. exact I.
Defined.

(** ** Sessions of the subscriber *)

Section Sessions.

Import Subscriber.

Variable client : list event -> event -> option exn.
Variable MQTTMessage : Type.
Variable payload_decode : MQTTMessage -> outcome str.
Variable msg_topic : MQTTMessage -> outcome str.
Variable strftime : list event -> str.

Local Abbreviation perform :=
  (Session.perform client MQTTMessage payload_decode msg_topic strftime).
Local Abbreviation play :=
  (Session.play client MQTTMessage payload_decode msg_topic strftime).

(** [on_connect] in one equation. *)
Lemma on_connect_effect (rc : Z) (s : SubscriberApp) :
  exists status new,
    on_connect client rc s =
    (Return tt, mkApp (hashtag_entry s) (subscribed s) (msg_queue s)
                      (log s ++ UpdateStatus status (negb (rc =? 0)%Z) :: new)) /\
    subscribe_topics new
    = (if (rc =? 0)%Z then elements (subscribed s) else []) /\
    (if (rc =? 0)%Z then True else new = []).
Proof.
  unfold on_connect. destruct (rc =? 0)%Z.
  - set (st := py "Connected to " ++ BROKER ++ py ":" ++ str_of_int PORT).
    destruct (replay_loop client (elements (subscribed s))
                (mkApp (hashtag_entry s) (subscribed s) (msg_queue s)
                       (log s ++ [UpdateStatus st false])))
      as (new & E & T).
    exists st, new. split; [|split; [assumption | exact I]].
    run. rewrite E. cbn. same_log.
  - eexists _, []. split; [|split; reflexivity]. run. reflexivity.
Qed.

Lemma requested_namespaced (s : SubscriberApp) :
  requested s <> [] -> Session.namespaced (requested s).
Proof.
  unfold requested. intros Hne.
  destruct (normalize_topic_tag (strip (hashtag_entry s))) as (tag & Ht & E).
  rewrite E in *. destruct tag as [|c r]; [now contradict Hne|].
  exists (c :: r). repeat split; [discriminate | assumption].
Qed.

(** One step of a session returns normally and adds at most the requested
    topic, and that only when it is not empty. *)
Lemma perform_step (a : Session.action MQTTMessage) (s : SubscriberApp) :
  exists s',
    perform a s = (Return tt, s') /\
    (forall t, t ∈ subscribed s' ->
               t ∈ subscribed s \/ (t = requested s /\ requested s <> [])).
Proof.
  destruct a as [text| | |rc|rc|msg|]; cbn [Session.perform].
  - eexists. split; [reflexivity|]. cbn. auto.
  - destruct (subscribe_effect client s) as (r & _ & ->).
    eexists. split; [reflexivity|]. cbn [subscribed].
    unfold Session.calls_subscribe.
    destruct (is_empty (requested s)) eqn:Ee; cbn [negb andb]; [auto|].
    destruct (_ && _); [|auto]. intros t [Ht|Ht%elem_of_singleton]%elem_of_union;
      [auto|]. right. split; [assumption|]. intros E0. now rewrite E0 in Ee.
  - destruct (unsubscribe_effect client s) as (r & _ & ->).
    eexists. split; [reflexivity|]. cbn [subscribed].
    destruct (_ && _); [|auto]. intros t [Ht _]%elem_of_difference. auto.
  - destruct (on_connect_effect rc s) as (st & new & -> & _).
    eexists. split; [reflexivity|]. cbn. auto.
  - eexists. split; [reflexivity|]. cbn. auto.
  - rewrite on_message_spec. eexists. split; [reflexivity|]. cbn. auto.
  - destruct (process_queue_spec strftime s) as (tss & _ & ->).
    eexists. split; [reflexivity|]. cbn. auto.
Qed.

Lemma play_cons (a : Session.action MQTTMessage)
    (acts : list (Session.action MQTTMessage)) (s : SubscriberApp) :
  play (a :: acts) s
  = match perform a s with
    | (Return _, s') => play acts s'
    | (Raise e, s') => (Raise e, s')
    end.
Proof. reflexivity. Qed.

(** X9: no sequence of user and broker actions makes a handler raise, and
    every topic in the subscribed set stays a namespaced topic: if the
    set holds only namespaced topics before the session, it holds only
    namespaced topics after it. *)
Theorem X9_session_keeps_topics_namespaced
    (acts : list (Session.action MQTTMessage)) (s : SubscriberApp) :
  (forall t, t ∈ subscribed s -> Session.namespaced t) ->
  result (play acts) s = Return tt /\
  (forall t, t ∈ subscribed (exec (play acts) s) -> Session.namespaced t).
Proof.
  revert s. induction acts as [|a acts IH]; intros s Hs.
  - split; [reflexivity | exact Hs].
  - destruct (perform_step a s) as (s' & E & Hstep).
    unfold result, exec. rewrite play_cons, E. apply IH.
    intros t Ht. destruct (Hstep t Ht) as [Hold|[-> Hne]]; [auto|].
    now apply requested_namespaced.
Qed.

(** X10: [process_queue] empties the queue, puts one line in the box per
    queued item, calls the client for nothing and asks for its next run
    last; on an empty queue, so on a second run in a row, it puts no
    line at all. *)
Theorem X10_process_queue_drains (s : SubscriberApp) :
  let s1 := exec (process_queue strftime) s in
  let s2 := exec (process_queue strftime) s1 in
  result (process_queue strftime) s = Return tt /\
  msg_queue s1 = [] /\
  subscribed s1 = subscribed s /\
  length (box_lines (log s1))
  = (length (box_lines (log s)) + length (msg_queue s))%nat /\
  client_calls (log s1) = client_calls (log s) /\
  (exists l, log s1 = l ++ [After 200]) /\
  box_lines (log s2) = box_lines (log s1).
Proof.
  intros s1 s2.
  destruct (process_queue_spec strftime s) as (tss & Hts & E1).
  assert (Es1 : s1 = mkApp (hashtag_entry s) (subscribed s) []
                  (log s ++ Subscriber.lines_of tss (msg_queue s) ++ [After 200]))
    by (subst s1; unfold exec; now rewrite E1).
  destruct (process_queue_spec strftime s1) as (tss2 & Hts2 & E2).
  assert (Es2 : log s2 = log s1 ++ [After 200]).
  { subst s2. unfold exec. rewrite E2. cbn [snd log].
    rewrite Es1 in Hts2 |- *. cbn [msg_queue] in *.
    destruct tss2; [reflexivity | discriminate]. }
  clearbody s1 s2. rewrite Es2. subst s1. unfold result. rewrite E1.
  cbn [fst snd msg_queue subscribed log].
  split; [reflexivity|]. split; [reflexivity|]. split; [reflexivity|].
  split; [|split; [|split]].
  - unfold box_lines at 1. rewrite !omap_app.
    fold (box_lines (log s)).
    fold (box_lines (Subscriber.lines_of tss (msg_queue s))).
    rewrite box_lines_of by assumption. cbn [omap]. rewrite app_nil_r.
    rewrite length_app, length_zip_with. lia.
  - rewrite !client_calls_app.
    assert (Hn : forall q ts, client_calls (Subscriber.lines_of ts q) = []).
    { intros q. induction q as [|i q IHq]; intros [|t ts]; try reflexivity.
      cbn. apply IHq. }
    rewrite Hn. cbn. now rewrite app_nil_r.
  - eexists. now rewrite app_assoc.
  - unfold box_lines. rewrite omap_app. cbn [omap]. now rewrite app_nil_r.
Qed.

(** X11: a failed connection ([rc] other than 0) replays nothing: it
    leaves one error status in the log and the set and the queue as they
    were.  A successful one on an empty set reports the connection and
    makes no raw call either. *)
Theorem X11_no_replay_without_connection_or_topics (rc : Z) (s : SubscriberApp) :
  rc <> 0%Z \/ subscribed s = ∅ ->
  exists status,
    on_connect client rc s =
    (Return tt, mkApp (hashtag_entry s) (subscribed s) (msg_queue s)
                      (log s ++ [UpdateStatus status (negb (rc =? 0)%Z)])).
Proof.
  intros H. unfold on_connect. destruct (rc =? 0)%Z eqn:Hrc.
  - destruct H as [H|H]; [apply Z.eqb_eq in Hrc; contradiction|].
    eexists. run. rewrite H, elements_empty. reflexivity.
  - eexists. run. reflexivity.
Qed.

End Sessions.

Section Replay.

Import Subscriber.

Variable client : list event -> event -> option exn.
Variable strftime : list event -> str.




(** X13: the note of a successful Subscribe reaches the messages box.
    After the handler and one run of [process_queue], the last line of
    the box is the "[System] Subscribed" note for the topic, after one
    line for each item that was queued before it. *)
Theorem X13_subscribe_note_is_shown (s : SubscriberApp) :
  requested s <> [] -> requested s ∉ subscribed s ->
  client (log s) (ClientSubscribe (requested s)) = None ->
  let s2 := exec (process_queue strftime) (exec (subscribe client) s) in
  exists ts shown,
    box_lines (log s2)
    = box_lines (log s) ++ shown
      ++ [display_line ts (requested s) (py "[System] Subscribed")] /\
    length shown = length (msg_queue s).
Proof.
  intros Hne Hin Hc s2. subst s2. unfold exec at 2.
  rewrite (subscribe_ok client s Hne Hin Hc). cbn [snd].
  set (s1 := mkApp _ _ _ _).
  destruct (process_queue_spec strftime s1) as (tss & Hts & E).
  unfold exec. rewrite E. cbn [snd log]. subst s1. cbn [log msg_queue] in *.
  rewrite length_app in Hts. cbn [length] in Hts.
  destruct (exists_last (l := tss)) as (tss1 & ts & ->).
  { intros ->. cbn in Hts. lia. }
  rewrite length_app in Hts. cbn [length] in Hts.
  exists ts,
    (zip_with (fun ts item => display_line ts (fst item) (snd item))
              tss1 (msg_queue s)).
  split; [|rewrite length_zip_with; lia].
  unfold box_lines at 1. rewrite !omap_app.
  fold (box_lines (log s)). cbn [omap]. rewrite !app_nil_r.
  fold (box_lines (Subscriber.lines_of (tss1 ++ [ts])
          (msg_queue s ++ [(requested s, py "[System] Subscribed")]))).
  rewrite box_lines_of by (rewrite !length_app; cbn [length]; lia).
  rewrite zip_with_app by lia. reflexivity.
Qed.

End Replay.

Lemma namespaced_a : Session.namespaced (py "twitter/a").
Proof. exists (py "a"). repeat split. discriminate. Qed.

Lemma X9_session_keeps_topics_namespaced_witness :
  result (Session.play Demo.quiet (str * str) Demo.plain_payload
            Demo.plain_topic Demo.noon
            [Session.BrokerConnect _ 0; Session.TypeEntry _ (py " #b ");
             Session.ClickSubscribe _; Session.Poll _])
         Demo.following
  = Return tt /\
  (forall t,
     t ∈ Subscriber.subscribed
           (exec (Session.play Demo.quiet (str * str) Demo.plain_payload
                    Demo.plain_topic Demo.noon
                    [Session.BrokerConnect _ 0; Session.TypeEntry _ (py " #b ");
                     Session.ClickSubscribe _; Session.Poll _])
                 Demo.following) ->
     Session.namespaced t).
Proof.
  apply (X9_session_keeps_topics_namespaced Demo.quiet (str * str)
           Demo.plain_payload Demo.plain_topic Demo.noon).
  intros t Ht. change (t ∈ ({[py "twitter/a"]} : gset str)) in Ht.
  apply elem_of_singleton in Ht. subst t. exact namespaced_a.
Defined.

Lemma X11_no_replay_without_connection_or_topics_witness :
  exists status,
    Subscriber.on_connect Demo.quiet 5 Demo.following =
    (Return tt, Subscriber.mkApp (py "#a") {[py "twitter/a"]} []
                  [UpdateStatus status true]).
Proof.
  apply (X11_no_replay_without_connection_or_topics Demo.quiet 5 Demo.following).
  left. discriminate.
Defined.


Lemma X13_subscribe_note_is_shown_witness :
  exists ts shown,
    box_lines (Subscriber.log
      (exec (Subscriber.process_queue Demo.noon)
            (exec (Subscriber.subscribe Demo.quiet) (Demo.fresh (py "#a")))))
    = [] ++ shown
      ++ [Subscriber.display_line ts (py "twitter/a") (py "[System] Subscribed")]
    /\ length shown = 0%nat.
Proof.
  apply (X13_subscribe_note_is_shown Demo.quiet Demo.noon (Demo.fresh (py "#a"))).
  - discriminate.
  - apply (bool_decide_unpack _). vm_compute. exact I.
  - reflexivity.
Defined.

(** ** More on the publisher *)

Section MorePublisher.

Import Publisher.

Variable pclient : bool -> list event -> event -> option exn.

(** The warning of [publish_tweet] for the first field that is empty. *)
Lemma publish_not_ready (p : PublisherApp) :
  publish_ready p = false ->
  publish_tweet pclient p =
  (Return tt,
   mkApp (username_entry p) (hashtag_entry p) (tweet_text p) (connected p)
         (log p ++ [if is_empty (username p)
                    then ShowWarning (py "Missing username")
                                     (py "Please enter a username.")
                    else if is_empty (message p)
                    then ShowWarning (py "Empty tweet")
                                     (py "Please write a tweet message.")
                    else ShowWarning (py "Empty hashtag")
                           (py "Please enter a hashtag/topic (e.g. #python).")])).
Proof.
  unfold publish_ready, username, message, requested, publish_tweet.
  intros H. run.
  destruct (is_empty (strip (username_entry p))); [reflexivity|].
  destruct (is_empty (strip (tweet_text p ++ [10]))); [reflexivity|].
  destruct (is_empty (normalize_topic (strip (hashtag_entry p))));
    [reflexivity | discriminate].
Qed.

Lemma publish_ready_fields (p : PublisherApp) :
  publish_ready p = true ->
  username p <> [] /\ message p <> [] /\ requested p <> [].
Proof.
  unfold publish_ready. intros H.
  apply andb_true_iff in H as [H Ht]. apply andb_true_iff in H as [Hu Hm].
  repeat split; intros E; rewrite E in *; discriminate.
Qed.

(** [publish_tweet] in one equation. *)
Lemma publish_effect (p : PublisherApp) :
  let call := ClientPublish (requested p) (payload p) in
  let ready := publish_ready p in
  let ok := ready && returns_normally (pclient (connected p) (log p) call) in
  exists rest,
    client_calls rest = [] /\
    publish_tweet pclient p =
    (Return tt,
     mkApp (username_entry p) (hashtag_entry p)
           (if ok then [] else tweet_text p) (connected p)
           (log p ++ (if ready then [call] else []) ++ rest)).
Proof.
  intros call ready ok. subst call ready ok.
  destruct (publish_ready p) eqn:Hr.
  - destruct (publish_ready_fields p Hr) as (Hu & Hm & Ht).
    destruct (pclient (connected p) (log p)
                (ClientPublish (requested p) (payload p))) as [e|] eqn:Hc.
    + rewrite (publish_raises pclient p e Hu Hm Ht Hc).
      eexists. split; [|reflexivity]. reflexivity.
    + rewrite (publish_ok pclient p Hu Hm Ht Hc).
      eexists. split; [|reflexivity]. reflexivity.
  - rewrite (publish_not_ready p Hr). cbn [andb app].
    eexists. split; [|reflexivity].
    destruct (is_empty (username p)), (is_empty (message p)); reflexivity.
Qed.

Lemma strip_empty_all_space (s : str) : strip s = [] <-> all_space s = true.
Proof.
  split; [|apply strip_all_space]. intros E.
  destruct (strip_split s) as (a & b & Ha & Hb & Es).
  rewrite E in Es. rewrite Es. now apply all_space_app.
Qed.

Lemma is_empty_strip (s : str) : is_empty (strip s) = all_space s.
Proof.
  destruct (all_space s) eqn:H.
  - now rewrite (strip_all_space s H).
  - destruct (strip s) eqn:E; [|reflexivity].
    apply strip_empty_all_space in E. congruence.
Qed.

Lemma all_space_newline (s : str) : all_space (s ++ [10]) = all_space s.
Proof. unfold all_space. rewrite forallb_app. cbn. now rewrite andb_true_r. Qed.

Lemma strip_newline (s : str) : strip (s ++ [10]) = strip s.
Proof. apply (strip_padding [] s [10]); reflexivity. Qed.

(** X14: [publish_tweet] calls the client's publish primitive at most
    once, and exactly when the username, the message and the topic are
    all filled in; the call carries the normalised topic and the payload
    ["<username>: <message>"]. *)
Theorem X14_publish_call_iff_ready (p : PublisherApp) :
  result (publish_tweet pclient) p = Return tt /\
  client_calls (log (exec (publish_tweet pclient) p))
  = client_calls (log p)
    ++ (if publish_ready p
        then [ClientPublish (requested p)
                (strip (username_entry p) ++ py ": "
                 ++ strip (tweet_text p ++ [10]))]
        else []).
Proof.
  unfold result, exec. destruct (publish_effect p) as (rest & Hr & ->).
  cbn [fst snd log]. split; [reflexivity|].
  rewrite !client_calls_app, Hr, app_nil_r. f_equal.
  now destruct (publish_ready p).
Qed.

(** X15: when a field is missing the handler shows one warning, for the
    first missing field in the order username, message, hashtag, and
    changes nothing else: the tweet text is kept. *)
Theorem X15_first_missing_field_is_reported (p : PublisherApp) :
  publish_ready p = false ->
  exists title msg,
    publish_tweet pclient p =
    (Return tt,
     mkApp (username_entry p) (hashtag_entry p) (tweet_text p) (connected p)
           (log p ++ [ShowWarning title msg])) /\
    title = (if is_empty (username p) then py "Missing username"
             else if is_empty (message p) then py "Empty tweet"
             else py "Empty hashtag").
Proof.
  intros H. rewrite (publish_not_ready p H).
  destruct (is_empty (username p)), (is_empty (message p)); eauto.
Qed.

(** X16: a field that holds only whitespace counts as missing.  The
    handler is ready to publish exactly when the username entry and the
    tweet text each hold a character that is not whitespace and the
    hashtag entry normalises to a topic that is not empty; the newline
    that the text widget appends does not count. *)
Theorem X16_ready_iff_fields_not_blank (p : PublisherApp) :
  publish_ready p
  = negb (all_space (username_entry p))
    && negb (all_space (tweet_text p))
    && negb (is_empty (normalize_topic (hashtag_entry p))).
Proof.
  unfold publish_ready, username, message.
  rewrite !is_empty_strip, all_space_newline.
  now rewrite (pub_requested_eq p).
Qed.

(** X17: the tweet text is cleared exactly when the publish call was made
    and returned; when it raises the text is kept and the error is shown.
    The username, the hashtag and the connection are never changed. *)
Theorem X17_tweet_cleared_iff_published (p : PublisherApp) :
  let p' := exec (publish_tweet pclient) p in
  let r := pclient (connected p) (log p)
             (ClientPublish (requested p) (payload p)) in
  tweet_text p'
  = (if publish_ready p && returns_normally r then [] else tweet_text p) /\
  username_entry p' = username_entry p /\
  hashtag_entry p' = hashtag_entry p /\
  connected p' = connected p /\
  (publish_ready p = true -> forall e, r = Some e ->
   In (ShowError (py "Publish error") (py "Failed to publish: " ++ exn_str e))
      (log p')).
Proof.
  intros p' r. subst p' r. unfold exec.
  do 4 (split; [destruct (publish_effect p) as (rest & Hr & ->); reflexivity|]).
  intros Hready e He.
  destruct (publish_ready_fields p Hready) as (Hu & Hm & Ht).
  rewrite (publish_raises pclient p e Hu Hm Ht He). cbn [snd log].
  apply in_or_app. right. cbn. auto.
Qed.

(** X18: whitespace around the three fields does not change what is
    published: with the same log, a form whose fields are those of [p]
    wrapped in whitespace makes the same client calls as [p]. *)
Theorem X18_publish_ignores_padding (p p' : PublisherApp)
    (a1 b1 a2 b2 a3 b3 : str) :
  all_space a1 = true -> all_space b1 = true ->
  all_space a2 = true -> all_space b2 = true ->
  all_space a3 = true -> all_space b3 = true ->
  username_entry p' = a1 ++ username_entry p ++ b1 ->
  tweet_text p' = a2 ++ tweet_text p ++ b2 ->
  hashtag_entry p' = a3 ++ hashtag_entry p ++ b3 ->
  log p' = log p ->
  client_calls (log (exec (publish_tweet pclient) p'))
  = client_calls (log (exec (publish_tweet pclient) p)).
Proof.
  intros Ha1 Hb1 Ha2 Hb2 Ha3 Hb3 Eu Em Eh El.
  assert (U : username p' = username p).
  { unfold username. rewrite Eu. now apply strip_padding. }
  assert (Ms : message p' = message p).
  { unfold message. rewrite !strip_newline, Em. now apply strip_padding. }
  assert (T : requested p' = requested p).
  { unfold requested. rewrite Eh. f_equal.
    rewrite strip_padding by assumption. reflexivity. }
  assert (R : publish_ready p' = publish_ready p).
  { unfold publish_ready. now rewrite U, Ms, T. }
  assert (P : payload p' = payload p).
  { unfold payload. now rewrite U, Ms. }
  unfold exec.
  destruct (publish_effect p) as (rest & Hr & ->).
  destruct (publish_effect p') as (rest' & Hr' & ->).
  cbn [snd log]. rewrite !client_calls_app, Hr, Hr', El, R, T, P.
  reflexivity.
Qed.

End MorePublisher.

(** ** Start-up and shutdown *)

Ltac run_lifecycle :=
  unfold Lifecycle._connect, Lifecycle.on_close, Lifecycle.call_client,
    Lifecycle.update_status, Lifecycle.emit,
    try_except, bind, gets, modify, ret, raise, exec, result;
  cbn.

Section StartAndStop.

Import Lifecycle.

Variable client : list call -> call -> option exn.


(** X20: closing the window never raises and always destroys the window,
    once and last.  [disconnect] is called only when [loop_stop] returned;
    what the client raises is swallowed without a status. *)
Theorem X20_on_close_always_destroys (l : list call) :
  result (on_close client) l = Return tt /\
  exists new,
    exec (on_close client) l = l ++ LoopStop :: new ++ [Destroy] /\
    ~ In Destroy new /\
    (In Disconnect new <-> client l LoopStop = None) /\
    List.filter is_status new = [].
Proof.
  run_lifecycle.
  destruct (client l LoopStop) as [e|] eqn:Hs; cbn.
  - split; [reflexivity|]. exists []. split; [same_log|]. cbn.
    repeat split; try tauto; discriminate.
  - destruct (client (l ++ [LoopStop]) Disconnect) as [e|] eqn:Hd; cbn.
    + split; [reflexivity|]. exists [Disconnect]. split; [same_log|]. cbn.
      repeat split; auto. intros [H|[]]. discriminate H.
    + split; [reflexivity|]. exists [Disconnect]. split; [same_log|]. cbn.
      repeat split; auto. intros [H|[]]. discriminate H.
Qed.

End StartAndStop.

(** ** Concrete runs of the further properties *)

Lemma X15_first_missing_field_is_reported_witness :
  exists title msg,
    Publisher.publish_tweet Demo.paho
      (Demo.offline (py "  ") (py "#test") (py "hello"))
    = (Return tt,
       Publisher.mkApp (py "  ") (py "#test") (py "hello") false
                       [ShowWarning title msg]) /\
    title = py "Missing username".
Proof.
  apply (X15_first_missing_field_is_reported Demo.paho
           (Demo.offline (py "  ") (py "#test") (py "hello"))).
  reflexivity.
Defined.

Lemma X17_tweet_cleared_iff_published_witness :
  Publisher.tweet_text
    (exec (Publisher.publish_tweet broken_pipe)
          (Demo.offline (py "bob") (py "#test") (py "hello")))
  = py "hello" /\
  In (ShowError (py "Publish error") (py "Failed to publish: broken pipe"))
     (Publisher.log
        (exec (Publisher.publish_tweet broken_pipe)
              (Demo.offline (py "bob") (py "#test") (py "hello")))).
Proof.
  destruct (X17_tweet_cleared_iff_published broken_pipe
              (Demo.offline (py "bob") (py "#test") (py "hello")))
    as (Ht & _ & _ & _ & He).
  split; [exact Ht|].
  apply (He eq_refl (Exception (py "broken pipe")) eq_refl).
Defined.

Lemma X18_publish_ignores_padding_witness :
  client_calls (Publisher.log
    (exec (Publisher.publish_tweet Demo.paho)
          (Demo.offline (py " bob ") (py "  #test") (py "hello" ++ [10]))))
  = client_calls (Publisher.log
    (exec (Publisher.publish_tweet Demo.paho)
          (Demo.offline (py "bob") (py "#test") (py "hello")))).
Proof.
  apply (X18_publish_ignores_padding Demo.paho
           (Demo.offline (py "bob") (py "#test") (py "hello"))
           (Demo.offline (py " bob ") (py "  #test") (py "hello" ++ [10]))
           (py " ") (py " ") [] [10] (py "  ") []); reflexivity.
Defined.

(** The broker cannot be reached: the loop is not started and the error
    is shown. *)
Example connect_unreachable_run :
  exec (Lifecycle._connect LifecycleDemo.unreachable) []
  = [Lifecycle.Connect (py "test.mosquitto.org") 1883 60;
     Lifecycle.Status (py "Connect error: timed out") true].
Proof. reflexivity. Qed.

(** The loop was never started: [disconnect] is skipped, the window is
    destroyed. *)
Example close_without_loop_run :
  exec (Lifecycle.on_close LifecycleDemo.never_started) []
  = [Lifecycle.LoopStop; Lifecycle.Destroy].
Proof. reflexivity. Qed.
